(** * Meter command class (node-zwave-js): payload codec

    Shallow embedding of [src/lib/commandclass/MeterCC.ts]: the decoders
    run by the constructors of [MeterCCReport] and [MeterCCSupportedReport]
    and the encoder [MeterCCGet.serialize], with the properties of the
    specification that concern them.

    Conventions.
    - A [Buffer] is a list of byte values, each a [Z] in [0, 255].
    - Lengths, offsets and byte counts are [nat]; every other JavaScript
      number that the code handles (field values, the version, scales)
      is a [Z].
    - A call that may throw returns a [Result]; [x <- e ;; k] stops at the
      first throw, as an exception leaving a constructor does. *)

From Stdlib Require Import ZArith List Bool Lia.
From stdpp Require Import base list.
Import ListNotations.

Local Open Scope Z_scope.

(** ** Errors and results *)

(** The failures that can leave the code below.  [PayloadTooShort] is what
    [validatePayload] raises, [Deserialization_NotImplemented] is the code of
    the error thrown by the constructor of [MeterCCGet], and
    [ERR_OUT_OF_RANGE] is the [RangeError] of a [Buffer] read outside the
    buffer. *)
Inductive ZWaveErrorCodes : Type :=
| PayloadTooShort
| Deserialization_NotImplemented
| ERR_OUT_OF_RANGE.

Inductive Result (A : Type) : Type :=
| Ok (a : A)
| Throw (e : ZWaveErrorCodes).

Arguments Ok {A} a.
Arguments Throw {A} e.

Definition bind {A B : Type} (m : Result A) (k : A -> Result B) : Result B :=
  match m with
  | Ok a => k a
  | Throw e => Throw e
  end.

Notation "x <- e ;; k" := (bind e (fun x => k))
  (at level 100, e at next level, right associativity).

(** ** Node's Buffer *)

Definition Buffer : Type := list Z.

(** The values a [Buffer] can hold. *)
Definition wf_buffer (buf : Buffer) : Prop :=
  Forall (fun b => 0 <= b < 256) buf.

(** [buf[i]] where the result feeds a bitwise operator or is read under a
    length guard: an index outside the buffer gives [undefined], which the
    bitwise operators read as 0. *)
Definition byteAt (buf : Buffer) (i : nat) : Z := default 0 (buf !! i).

(** [buf.slice(start)] and [buf.slice(start, end)] for indices that are not
    negative: both are clamped to the length, and an end before the start
    gives the empty buffer. *)
Definition slice_from (buf : Buffer) (start : nat) : Buffer := drop start buf.

Definition slice (buf : Buffer) (start stop : nat) : Buffer :=
  take (stop - start)%nat (drop start buf).

(** [Buffer.concat] *)
Definition Buffer_concat (bufs : list Buffer) : Buffer := concat bufs.

(** [Buffer.alloc(n, 0)] *)
Definition Buffer_alloc (n : nat) : Buffer := replicate n 0.

(** [buf[i] = v]: the value is stored modulo 256, and a store outside the
    buffer is dropped. *)
Definition Buffer_set (buf : Buffer) (i : nat) (v : Z) : Buffer :=
  <[i := v mod 256]> buf.

(** [buf.readUInt16BE(offset)]: throws when the two bytes are not both
    inside the buffer. *)
Definition readUInt16BE (buf : Buffer) (offset : nat) : Result Z :=
  match buf !! offset, buf !! (S offset) with
  | Some hi, Some lo => Ok (Z.lor (Z.shiftl hi 8) lo)
  | _, _ => Throw ERR_OUT_OF_RANGE
  end.

(** The big-endian unsigned value of a run of bytes, and its reading as a
    two's-complement integer of that width. *)
Definition uintBE (bytes : Buffer) : Z :=
  fold_left (fun acc b => acc * 256 + b) bytes 0.

Definition intBE (bytes : Buffer) : Z :=
  let width := 8 * Z.of_nat (length bytes) in
  let u := uintBE bytes in
  if 2 ^ (width - 1) <=? u then u - 2 ^ width else u.

(** ** JavaScript's 32-bit conversions *)

Definition ToUint32 (x : Z) : Z := x mod 2 ^ 32.

Definition ToInt32 (x : Z) : Z :=
  let u := x mod 2 ^ 32 in
  if 2 ^ 31 <=? u then u - 2 ^ 32 else u.

(** [a & b], [a | b], [a << n] and [a >>> n] on numbers that need not be
    bytes. *)
Definition js_and (a b : Z) : Z := Z.land (ToInt32 a) (ToInt32 b).
Definition js_or (a b : Z) : Z := Z.lor (ToInt32 a) (ToInt32 b).
Definition js_shl (a n : Z) : Z := ToInt32 (Z.shiftl (ToInt32 a) (n mod 32)).
Definition js_ushr (a n : Z) : Z := Z.shiftr (ToUint32 a) (n mod 32).

(** ** ../util/misc *)

(** Modelled from the spec: [validatePayload] is imported from
    [../util/misc], which is not among the sources.  The specification
    (4.1) has it fail with the payload-too-short decode error when the
    condition it is given is false, and do nothing otherwise. *)
Definition validatePayload (condition : bool) : Result unit :=
  if condition then Ok tt else Throw PayloadTooShort.

(** ** ../values/Primitive *)

Module Primitive.

(** [Maybe<T>]: a value or the marker [unknownNumber]. *)
Inductive Maybe (T : Type) : Type :=
| Known (t : T)
| unknownNumber.

Arguments Known {T} t.
Arguments unknownNumber {T}.

(** A decoded decimal: it stands for [magnitude / 10 ^ precision], which the
    source holds as a JavaScript number. *)
Record Decimal : Type := mkDecimal {
  magnitude : Z;
  precision : Z
}.

(** What [parseFloatWithScale] returns. *)
Record FloatWithScale : Type := mkFloatWithScale {
  scale : Z;
  value : Decimal;
  bytesRead : nat
}.

(** Modelled from the spec: the byte-size selector of the descriptor byte
    (4.2): 1 is one byte, 2 is two bytes, 3 is four bytes.  The
    specification gives selector 0 no size. *)
Definition byteSize (selector : Z) : option nat :=
  match selector with
  | 1 => Some 1%nat
  | 2 => Some 2%nat
  | 3 => Some 4%nat
  | _ => None
  end.

(** Modelled from the spec: [parseFloatWithScale] is imported from
    [../values/Primitive], which is not among the sources.  By the
    specification (4.2) the first byte is a descriptor, bits 7..5 the
    precision, bits 4..3 the byte-size selector, bits 2..0 the low bits of
    the scale; the magnitude follows as that many big-endian bytes read as a
    two's-complement integer; the result is the value, the scale bits and
    [1 + byte size] as the number of bytes consumed.  A payload too short
    for the descriptor or the magnitude, or a selector without a size, fails
    the length validation (4.1). *)
Definition parseFloatWithScale (payload : Buffer) : Result FloatWithScale :=
  _ <- validatePayload (1 <=? length payload)%nat ;;
  let precision := Z.shiftr (Z.land (byteAt payload 0) 224) 5 in
  let selector := Z.shiftr (Z.land (byteAt payload 0) 24) 3 in
  let scale := Z.land (byteAt payload 0) 7 in
  match byteSize selector with
  | None => Throw PayloadTooShort
  | Some size =>
      _ <- validatePayload (1 + size <=? length payload)%nat ;;
      let magnitude := intBE (slice payload 1 (1 + size)) in
      Ok (mkFloatWithScale scale (mkDecimal magnitude precision) (1 + size))
  end.

(** Bit [position mod 8] of byte [position / 8] of a bit mask, the least
    significant bit of a byte being its bit 0. *)
Definition bitIsSet (mask : Buffer) (position : nat) : bool :=
  Z.testbit (byteAt mask (position / 8)) (Z.of_nat (position mod 8)).

(** Modelled from the spec: [parseBitMask] is imported from
    [../values/Primitive], which is not among the sources.  By the
    specification (4.3) bit [k] of byte [i] set means that index
    [i * 8 + k + origin] is present; the indices come out in increasing
    order of the bit position. *)
Definition parseBitMask (mask : Buffer) (startValue : Z) : list Z :=
  List.map (fun position => Z.of_nat position + startValue)
    (List.filter (bitIsSet mask) (seq 0 (8 * length mask))).

End Primitive.

(** ** MeterCC *)

(** [enum RateType] *)
Module RateType.
Definition Unspecified : Z := 0.
Definition Consumed : Z := 1.
Definition Produced : Z := 2.
End RateType.

(** *** MeterCCReport *)

Module MeterCCReport.
Import Primitive.

(** The fields of a [MeterCCReport].  [_deltaTime] and [_previousValue] are
    [None] while the constructor has not assigned them.  [_scale] holds the
    scale index that the constructor hands, with [_type], to
    [lookupMeterScale], the table of [../config/Meters] that resolves it to
    its label. *)
Record t : Type := mk {
  _type : Z;
  _rateType : Z;
  _value : Decimal;
  _deltaTime : option (Maybe Z);
  _previousValue : option Decimal;
  _scale : Z
}.

(** The scale is composed of two fields: bit 7 of byte 0, shifted to bit 2,
    and the scale bits that come with the value. *)
Definition scale1 (payload : Buffer) (scale1Bits10 : Z) : Z :=
  let scale1Bit2 := Z.shiftr (Z.land (byteAt payload 0) 128) 7 in
  Z.lor (Z.shiftl scale1Bit2 2) scale1Bits10.

(** [this.deltaTime !== 0] *)
Definition deltaTime_nonzero (deltaTime : Maybe Z) : bool :=
  match deltaTime with
  | Known d => negb (d =? 0)
  | unknownNumber => true
  end.

Section Constructor.

(** The decoder of scaled values the constructor calls, imported from
    [../values/Primitive]. *)
Variable parseFloatWithScale : Buffer -> Result FloatWithScale.

(** The constructor, from the payload and the version of the command. *)
Definition constructor (version : Z) (payload : Buffer) : Result t :=
  _ <- validatePayload (2 <=? length payload)%nat ;;
  let type := Z.land (byteAt payload 0) 31 in
  let rateType := Z.shiftr (Z.land (byteAt payload 0) 96) 5 in
  parsed <- parseFloatWithScale (slice_from payload 1) ;;
  let scale1Bits10 := scale parsed in
  let bytesRead := bytesRead parsed in
  let offset := (2 + bytesRead)%nat in
  let scale1 := scale1 payload scale1Bits10 in
  if (2 <=? version) && (offset + 2 <=? length payload)%nat then
    raw <- readUInt16BE payload offset ;;
    let offset := (offset + 2)%nat in
    let deltaTime := if raw =? 65535 then unknownNumber else Known raw in
    previous <-
      (if deltaTime_nonzero deltaTime
          && (offset + bytesRead <=? length payload)%nat
       then
         prev <- parseFloatWithScale
                   (Buffer_concat [[byteAt payload 1];
                                   slice_from payload offset]) ;;
         Ok ((offset + bytesRead)%nat, Some (value prev))
       else Ok (offset, None)) ;;
    let offset := fst previous in
    let scale2 :=
      if (4 <=? version) && (scale1 =? 7)
         && (offset + 1 <=? length payload)%nat
      then byteAt payload offset
      else 0 in
    let scale := if scale1 =? 7 then scale1 + scale2 else scale1 in
    Ok (mk type rateType (value parsed) (Some deltaTime) (snd previous) scale)
  else
    let scale2 := 0 in
    let scale := if scale1 =? 7 then scale1 + scale2 else scale1 in
    Ok (mk type rateType (value parsed) (Some (Known 0)) None scale).

End Constructor.

End MeterCCReport.

(** *** MeterCCGet *)

Module MeterCCGet.

(** The options of the encode path, and the fields they set. *)
Record t : Type := mk {
  version : Z;
  rateType : option Z;
  scale : option Z
}.

(** The constructor: the decode path is not implemented. *)
Definition constructor (version : Z) (options : Buffer + option Z * option Z)
  : Result t :=
  match options with
  | inl _ => Throw Deserialization_NotImplemented
  | inr (rateType, scale) => Ok (mk version rateType scale)
  end.

(** [serialize], up to the frame that [super.serialize()] puts around the
    payload: the result is [this.payload]. *)
Definition serialize (this : t) : Result Buffer :=
  let '(scale1, scale2, bufferLength) :=
    match scale this with
    | None => (0, None, 0%nat)
    | Some s =>
        if (4 <=? version this) && (7 <=? s) then
          (7, Some (js_ushr s 3), 2%nat)
        else if 3 <=? version this then (js_and s 7, None, 1%nat)
        else if 2 <=? version this then (js_and s 3, None, 1%nat)
        else (0, None, 0%nat)
    end in
  let '(rateTypeFlags, bufferLength) :=
    match rateType this with
    | Some r =>
        if 4 <=? version this then (js_and r 3, Nat.max bufferLength 1)
        else (0, bufferLength)
    | None => (0, bufferLength)
    end in
  let payload := Buffer_alloc bufferLength in
  let payload :=
    Buffer_set payload 0 (js_or (js_shl rateTypeFlags 6) (js_shl scale1 3)) in
  let payload :=
    match scale2 with
    | Some s2 => if s2 =? 0 then payload else Buffer_set payload 1 s2
    | None => payload
    end in
  Ok payload.

End MeterCCGet.

(** *** MeterCCSupportedReport *)

Module MeterCCSupportedReport.
Import Primitive.

Record t : Type := mk {
  _type : Z;
  _supportsReset : bool;
  _supportedScales : list Z;
  _supportedRateTypes : list Z
}.

(** The bit mask of the spread form: byte 1 without its top bit, then the
    [extraBytes] bytes that start at byte 3. *)
Definition spreadMask (payload : Buffer) (extraBytes : Z) : Buffer :=
  Buffer_concat [[Z.land (byteAt payload 1) 127];
                 slice payload 3 (3 + Z.to_nat extraBytes)].

(** [scale => (scale >= 8 ? scale - 1 : scale)] *)
Definition reduce (scale : Z) : Z := if 8 <=? scale then scale - 1 else scale.

Definition constructor (payload : Buffer) : Result t :=
  _ <- validatePayload (2 <=? length payload)%nat ;;
  let type := Z.land (byteAt payload 0) 31 in
  let supportsReset := negb (Z.land (byteAt payload 0) 128 =? 0) in
  let hasMoreScales := negb (Z.land (byteAt payload 1) 128 =? 0) in
  supportedScales <-
    (if hasMoreScales then
       _ <- validatePayload (3 <=? length payload)%nat ;;
       let extraBytes := byteAt payload 2 in
       _ <- validatePayload (3 + extraBytes <=? Z.of_nat (length payload)) ;;
       Ok (List.map reduce (parseBitMask (spreadMask payload extraBytes) 0))
     else Ok (parseBitMask [byteAt payload 1] 0)) ;;
  let supportedRateTypes :=
    parseBitMask [Z.shiftr (Z.land (byteAt payload 0) 96) 5] 1 in
  Ok (mk type supportsReset supportedScales supportedRateTypes).

End MeterCCSupportedReport.

(** ** The shapes of a decoded report *)

Import Primitive.

Section Decoded.

Variable parseFloatWithScale : Buffer -> Result FloatWithScale.

(** The scale index the constructor ends with when the extension byte, if
    any, is at [offset]. *)
Definition scaleWithExtension
    (version : Z) (payload : Buffer) (scale1 : Z) (offset : nat) : Z :=
  let scale2 :=
    if (4 <=? version) && (scale1 =? 7) && (offset + 1 <=? length payload)%nat
    then byteAt payload offset
    else 0 in
  if scale1 =? 7 then scale1 + scale2 else scale1.

(** The delta time read from the two bytes [hi], [lo]. *)
Definition deltaTimeOf (hi lo : Z) : Maybe Z :=
  let raw := Z.lor (Z.shiftl hi 8) lo in
  if raw =? 65535 then unknownNumber else Known raw.

(** The shapes a successful decode can have. *)
Inductive decoded (version : Z) (payload : Buffer) (parsed : FloatWithScale)
  : MeterCCReport.t -> Prop :=
| decoded_no_delta_time :
    version < 2 \/ (length payload < 2 + bytesRead parsed + 2)%nat ->
    decoded version payload parsed
      (MeterCCReport.mk
         (Z.land (byteAt payload 0) 31)
         (Z.shiftr (Z.land (byteAt payload 0) 96) 5)
         (value parsed) (Some (Known 0)) None
         (let scale1 := MeterCCReport.scale1 payload (scale parsed) in
          if scale1 =? 7 then scale1 + 0 else scale1))
| decoded_delta_time hi lo rest :
    2 <= version ->
    drop (2 + bytesRead parsed) payload = hi :: lo :: rest ->
    MeterCCReport.deltaTime_nonzero (deltaTimeOf hi lo) = false
    \/ (length rest < bytesRead parsed)%nat ->
    decoded version payload parsed
      (MeterCCReport.mk
         (Z.land (byteAt payload 0) 31)
         (Z.shiftr (Z.land (byteAt payload 0) 96) 5)
         (value parsed) (Some (deltaTimeOf hi lo)) None
         (scaleWithExtension version payload
            (MeterCCReport.scale1 payload (scale parsed))
            (2 + bytesRead parsed + 2)))
| decoded_previous_value hi lo rest previous :
    2 <= version ->
    drop (2 + bytesRead parsed) payload = hi :: lo :: rest ->
    MeterCCReport.deltaTime_nonzero (deltaTimeOf hi lo) = true ->
    (bytesRead parsed <= length rest)%nat ->
    parseFloatWithScale (byteAt payload 1 :: rest) = Ok previous ->
    decoded version payload parsed
      (MeterCCReport.mk
         (Z.land (byteAt payload 0) 31)
         (Z.shiftr (Z.land (byteAt payload 0) 96) 5)
         (value parsed) (Some (deltaTimeOf hi lo)) (Some (value previous))
         (scaleWithExtension version payload
            (MeterCCReport.scale1 payload (scale parsed))
            (2 + bytesRead parsed + 2 + bytesRead parsed))).

End Decoded.

(** * Properties *)

(** ** Bit masks *)

Lemma In_parseBitMask (mask : Buffer) (startValue i : Z) :
  In i (parseBitMask mask startValue) <->
  exists position : nat,
    (position < 8 * length mask)%nat /\ bitIsSet mask position = true /\
    i = Z.of_nat position + startValue.
Proof.
  unfold parseBitMask. rewrite in_map_iff. split.
  - intros (position & Hi & Hin). apply filter_In in Hin as [Hseq Hbit].
    apply in_seq in Hseq. exists position. repeat split; [lia | assumption | congruence].
  - intros (position & Hlt & Hbit & Hi). exists position. split; [congruence |].
    apply filter_In. split; [apply in_seq; lia | assumption].
Qed.

Lemma NoDup_parseBitMask (mask : Buffer) (startValue : Z) :
  List.NoDup (parseBitMask mask startValue).
Proof.
  unfold parseBitMask. apply NoDup_map_NoDup_ForallPairs.
  - intros x y _ _ Heq. lia.
  - apply List.NoDup_filter, List.seq_NoDup.
Qed.

(** Testing a byte against [0b1_0000000] reads its bit 7. *)
Lemma land_128_testbit (b : Z) : (Z.land b 128 =? 0) = negb (Z.testbit b 7).
Proof.
  destruct (Z.testbit b 7) eqn:Hbit; simpl.
  - apply Z.eqb_neq. intros H0.
    assert (Hl : Z.testbit (Z.land b 128) 7 = true)
      by (rewrite Z.land_spec, Hbit; reflexivity).
    rewrite H0 in Hl. discriminate.
  - apply Z.eqb_eq. apply Z.bits_inj'. intros n Hn.
    rewrite Z.land_spec, Z.bits_0.
    change 128 with (2 ^ 7). rewrite Z.pow2_bits_eqb by lia.
    destruct (Z.eqb_spec 7 n) as [<- | _].
    + rewrite Hbit. reflexivity.
    + apply andb_false_r.
Qed.

(** Bit 7 of the first byte of a spread mask is never set. *)
Lemma spread_bit_7_clear (b : Z) (tail : Buffer) :
  bitIsSet (Z.land b 127 :: tail) 7 = false.
Proof.
  change (Z.testbit (Z.land b 127) 7 = false).
  rewrite Z.land_spec. apply andb_false_r.
Qed.

(** Within the first byte of a mask a position is that byte's bit. *)
Lemma bitIsSet_first_byte (b : Z) (tail : Buffer) (position : nat) :
  (position < 8)%nat ->
  bitIsSet (b :: tail) position = Z.testbit b (Z.of_nat position).
Proof.
  intros Hlt. unfold bitIsSet.
  rewrite Nat.div_small, Nat.mod_small by assumption. reflexivity.
Qed.

(** [reduce] sends two distinct positions to one index only when they are
    7 and 8. *)
Lemma reduce_collision (p q : nat) :
  MeterCCSupportedReport.reduce (Z.of_nat p + 0) =
  MeterCCSupportedReport.reduce (Z.of_nat q + 0) ->
  p = q \/ (p = 7%nat /\ q = 8%nat) \/ (p = 8%nat /\ q = 7%nat).
Proof.
  unfold MeterCCSupportedReport.reduce.
  destruct (Z.leb_spec 8 (Z.of_nat p + 0)), (Z.leb_spec 8 (Z.of_nat q + 0)); lia.
Qed.

Lemma NoDup_reduce_spread (b : Z) (tail : Buffer) :
  List.NoDup
    (List.map MeterCCSupportedReport.reduce
       (parseBitMask (Z.land b 127 :: tail) 0)).
Proof.
  unfold parseBitMask. rewrite List.map_map.
  apply NoDup_map_NoDup_ForallPairs.
  - intros p q Hp Hq Heq.
    apply filter_In in Hp as [_ Hp]. apply filter_In in Hq as [_ Hq].
    destruct (reduce_collision p q Heq) as [H | [[-> _] | [_ ->]]];
      [assumption | |]; rewrite spread_bit_7_clear in *; discriminate.
  - apply List.NoDup_filter, List.seq_NoDup.
Qed.

(** The two bits of the rate-type field give the indices 1 and 2 only. *)
Lemma rate_type_mask (b x : Z) :
  In x (parseBitMask [Z.shiftr (Z.land b 96) 5] 1) -> x = 1 \/ x = 2.
Proof.
  intros Hin. apply In_parseBitMask in Hin as (position & Hlt & Hbit & ->).
  simpl in Hlt. rewrite bitIsSet_first_byte in Hbit by lia.
  rewrite Z.shiftr_spec, Z.land_spec in Hbit by lia.
  apply andb_true_iff in Hbit as [_ Hbit].
  assert (Hcases : (position < 2 \/ position = 2 \/ position = 3 \/ position = 4
                    \/ position = 5 \/ position = 6 \/ position = 7)%nat) by lia.
  destruct Hcases as [H | H]; [lia |].
  repeat (destruct H as [-> | H]; [discriminate Hbit |]).
  subst position. discriminate Hbit.
Qed.

(** ** MeterCCSupportedReport *)

(** What a successful [MeterCCSupportedReport.constructor] has computed. *)
Lemma supported_report_inv (payload : Buffer) (r : MeterCCSupportedReport.t) :
  MeterCCSupportedReport.constructor payload = Ok r ->
  (2 <= length payload)%nat /\
  MeterCCSupportedReport._supportedRateTypes r =
    parseBitMask [Z.shiftr (Z.land (byteAt payload 0) 96) 5] 1 /\
  ((Z.testbit (byteAt payload 1) 7 = true /\
    (3 <= length payload)%nat /\
    3 + byteAt payload 2 <= Z.of_nat (length payload) /\
    MeterCCSupportedReport._supportedScales r =
      List.map MeterCCSupportedReport.reduce
        (parseBitMask
           (MeterCCSupportedReport.spreadMask payload (byteAt payload 2)) 0))
   \/
   (Z.testbit (byteAt payload 1) 7 = false /\
    MeterCCSupportedReport._supportedScales r =
      parseBitMask [byteAt payload 1] 0)).
Proof.
  unfold MeterCCSupportedReport.constructor, validatePayload.
  destruct (Nat.leb_spec 2 (length payload)) as [Hlen | ];
    [| intros Hthrow; discriminate Hthrow].
  cbn [bind]. rewrite land_128_testbit, negb_involutive.
  destruct (Z.testbit (byteAt payload 1) 7).
  - destruct (Nat.leb_spec 3 (length payload)) as [Hlen3 | ];
      [| intros Hthrow; discriminate Hthrow].
    cbn [bind].
    destruct (Z.leb_spec (3 + byteAt payload 2) (Z.of_nat (length payload)))
      as [Hextra | ]; [| intros Hthrow; discriminate Hthrow].
    cbn [bind]. intros [= <-]. cbn. auto 10.
  - cbn [bind]. intros [= <-]. cbn. auto 10.
Qed.

(** C6.  A Report or SupportedReport payload shorter than 2 bytes is
    rejected with the payload-too-short error: the constructor throws before
    it has assigned any field, so no command object results, whatever the
    version and whatever the decoder of scaled values does. *)
Theorem short_payload_rejected
    (parseFloatWithScale : Buffer -> Result FloatWithScale)
    (version : Z) (payload : Buffer) :
  (length payload < 2)%nat ->
  MeterCCReport.constructor parseFloatWithScale version payload
    = Throw PayloadTooShort /\
  MeterCCSupportedReport.constructor payload = Throw PayloadTooShort.
Proof.
  intros Hlen.
  unfold MeterCCReport.constructor, MeterCCSupportedReport.constructor,
    validatePayload.
  destruct (Nat.leb_spec 2 (length payload)); [lia |]. split; reflexivity.
Qed.

Lemma short_payload_rejected_witness :
  MeterCCReport.constructor parseFloatWithScale 4 [33]
    = Throw PayloadTooShort /\
  MeterCCSupportedReport.constructor [33] = Throw PayloadTooShort.
Proof. apply short_payload_rejected. simpl. lia. Defined.

(** C3.  In the spread form (bit 7 of byte 1 set, byte 2 the count [e] of
    extra bytes, which are bytes 3 to 3 + e) the constructor succeeds and
    the supported scales are exactly the images of the bit positions set in
    the mask made of byte 1 without its top bit followed by the extra bytes:
    a position below 8 stays as it is and a position [p >= 8] becomes
    [p - 1].  Position 7 is never set in that mask, so no two positions
    give the same index: the list has no duplicates. *)
Theorem spread_supported_scales (payload : Buffer) (e : nat) :
  Z.testbit (byteAt payload 1) 7 = true ->
  byteAt payload 2 = Z.of_nat e ->
  (3 + e <= length payload)%nat ->
  let mask := Z.land (byteAt payload 1) 127 :: take e (drop 3 payload) in
  exists r,
    MeterCCSupportedReport.constructor payload = Ok r /\
    (forall i : Z,
       In i (MeterCCSupportedReport._supportedScales r) <->
       exists position : nat,
         (position < 8 * length mask)%nat /\
         bitIsSet mask position = true /\
         i = if (8 <=? position)%nat then Z.of_nat position - 1
             else Z.of_nat position) /\
    bitIsSet mask 7 = false /\
    List.NoDup (MeterCCSupportedReport._supportedScales r).
Proof.
  intros Hbit He Hlen mask.
  assert (Hmask : MeterCCSupportedReport.spreadMask payload (byteAt payload 2)
                  = mask).
  { unfold MeterCCSupportedReport.spreadMask, Buffer_concat, slice, mask.
    rewrite He, Nat2Z.id. cbn [concat app]. rewrite app_nil_r.
    replace (3 + e - 3)%nat with e by lia. reflexivity. }
  unfold MeterCCSupportedReport.constructor, validatePayload.
  destruct (Nat.leb_spec 2 (length payload)); [| lia].
  destruct (Nat.leb_spec 3 (length payload)); [| lia].
  cbn [bind]. rewrite land_128_testbit, Hbit. cbn [negb bind].
  destruct (Z.leb_spec (3 + byteAt payload 2) (Z.of_nat (length payload)));
    [| lia].
  cbn [bind]. rewrite Hmask. eexists. split; [reflexivity |].
  cbn [MeterCCSupportedReport._supportedScales]. split; [| split].
  - intros i. rewrite in_map_iff. split.
    + intros (j & <- & Hj). apply In_parseBitMask in Hj as (p & Hp & Hset & ->).
      exists p. split; [assumption |]. split; [assumption |].
      unfold MeterCCSupportedReport.reduce.
      destruct (Z.leb_spec 8 (Z.of_nat p + 0)), (Nat.leb_spec 8 p); lia.
    + intros (p & Hp & Hset & ->). exists (Z.of_nat p + 0). split.
      * unfold MeterCCSupportedReport.reduce.
        destruct (Z.leb_spec 8 (Z.of_nat p + 0)), (Nat.leb_spec 8 p); lia.
      * apply In_parseBitMask. exists p. auto.
  - apply spread_bit_7_clear.
  - apply NoDup_reduce_spread.
Qed.

Lemma spread_supported_scales_witness :
  exists r,
    MeterCCSupportedReport.constructor [225; 131; 2; 129; 1] = Ok r /\
    MeterCCSupportedReport._supportedScales r = [0; 1; 7; 14; 15] /\
    List.NoDup (MeterCCSupportedReport._supportedScales r).
Proof.
  destruct (spread_supported_scales [225; 131; 2; 129; 1] 2)
    as (r & Hr & _ & _ & Hnodup); [reflexivity | reflexivity | simpl; lia |].
  exists r. split; [exact Hr |]. split; [| exact Hnodup].
  vm_compute in Hr. injection Hr as <-. reflexivity.
Defined.

(** C10.  In every SupportedReport that decodes, the supported rate types
    are among Consumed and Produced, Unspecified is not one of them, and no
    scale index is listed twice. *)
Theorem supported_report_invariants
    (payload : Buffer) (r : MeterCCSupportedReport.t) :
  MeterCCSupportedReport.constructor payload = Ok r ->
  (forall x : Z,
     In x (MeterCCSupportedReport._supportedRateTypes r) ->
     x = RateType.Consumed \/ x = RateType.Produced) /\
  ~ In RateType.Unspecified (MeterCCSupportedReport._supportedRateTypes r) /\
  List.NoDup (MeterCCSupportedReport._supportedScales r).
Proof.
  intros Hr. apply supported_report_inv in Hr as (_ & Hrates & Hscales).
  rewrite Hrates. split; [| split].
  - intros x. apply rate_type_mask.
  - intros Hin. apply rate_type_mask in Hin.
    unfold RateType.Unspecified in Hin. lia.
  - destruct Hscales as [(_ & _ & _ & ->) | (_ & ->)].
    + apply NoDup_reduce_spread.
    + apply NoDup_parseBitMask.
Qed.

Lemma supported_report_invariants_witness :
  (forall x : Z, In x [1; 2] -> x = 1 \/ x = 2) /\
  ~ In 0 [1; 2] /\
  List.NoDup [0; 1; 7; 14; 15].
Proof.
  exact (supported_report_invariants [225; 131; 2; 129; 1]
           (MeterCCSupportedReport.mk 1 true [0; 1; 7; 14; 15] [1; 2])
           eq_refl).
Defined.

(** ** MeterCCReport *)

(** Byte 1 of a payload of two bytes or more heads what follows byte 0. *)
Lemma slice_from_1 (payload : Buffer) :
  (2 <= length payload)%nat ->
  slice_from payload 1 = byteAt payload 1 :: drop 2 payload.
Proof.
  intros Hlen. unfold slice_from, byteAt.
  destruct payload as [| b0 [| b1 tail]]; simpl in Hlen; [lia | lia |].
  reflexivity.
Qed.

Section ReportLemmas.

Variable parseFloatWithScale : Buffer -> Result FloatWithScale.

(** Two bytes at an offset: where they are and what is left after them. *)
Lemma drop_two (payload : Buffer) (n : nat) (hi lo : Z) (rest : Buffer) :
  drop n payload = hi :: lo :: rest ->
  payload !! n = Some hi /\ payload !! (S n) = Some lo /\
  drop (n + 2) payload = rest /\ length payload = (n + 2 + length rest)%nat.
Proof.
  intros Hdrop.
  assert (H0 : drop n payload !! 0%nat = Some hi) by (rewrite Hdrop; reflexivity).
  assert (H1 : drop n payload !! 1%nat = Some lo) by (rewrite Hdrop; reflexivity).
  rewrite lookup_drop in H0, H1.
  replace (n + 0)%nat with n in H0 by lia.
  replace (n + 1)%nat with (S n) in H1 by lia.
  assert (Hrest : drop 2 (drop n payload) = rest) by (rewrite Hdrop; reflexivity).
  rewrite drop_drop in Hrest.
  assert (Hlen : length (drop n payload) = S (S (length rest)))
    by (rewrite Hdrop; reflexivity).
  rewrite length_drop in Hlen.
  repeat split; [assumption | assumption | assumption | lia].
Qed.

(** Two bytes are there whenever the length allows. *)
Lemma two_at (payload : Buffer) (n : nat) :
  (n + 2 <= length payload)%nat ->
  exists hi lo rest, drop n payload = hi :: lo :: rest.
Proof.
  intros Hlen.
  destruct (drop n payload) as [| hi [| lo rest]] eqn:Hdrop.
  - apply (f_equal length) in Hdrop. rewrite length_drop in Hdrop. simpl in Hdrop. lia.
  - apply (f_equal length) in Hdrop. rewrite length_drop in Hdrop. simpl in Hdrop. lia.
  - eauto.
Qed.

(** Each shape is what the constructor returns, *)
Lemma decoded_constructor
    (version : Z) (payload : Buffer) (parsed : FloatWithScale)
    (r : MeterCCReport.t) :
  (2 <= length payload)%nat ->
  parseFloatWithScale (slice_from payload 1) = Ok parsed ->
  decoded parseFloatWithScale version payload parsed r ->
  MeterCCReport.constructor parseFloatWithScale version payload = Ok r.
Proof.
  intros Hlen Hparsed Hdecoded.
  unfold MeterCCReport.constructor, validatePayload.
  destruct (Nat.leb_spec 2 (length payload)); [| lia].
  cbn [bind]. rewrite Hparsed. cbn [bind].
  destruct Hdecoded as [Hshort | hi lo rest Hv Hdrop Hnone
                        | hi lo rest previous Hv Hdrop Hnz Hrest Hprev].
  - destruct (Z.leb_spec 2 version); cbn [andb]; [| reflexivity].
    destruct (Nat.leb_spec (2 + bytesRead parsed + 2) (length payload));
      [lia | reflexivity].
  - destruct (drop_two _ _ _ _ _ Hdrop) as (Hhi & Hlo & Hrest & Hl).
    destruct (Z.leb_spec 2 version); [| lia]. cbn [andb].
    destruct (Nat.leb_spec (2 + bytesRead parsed + 2) (length payload)); [| lia].
    unfold readUInt16BE. rewrite Hhi, Hlo. cbn [bind].
    fold (deltaTimeOf hi lo).
    destruct (Nat.leb_spec (2 + bytesRead parsed + 2 + bytesRead parsed)
                (length payload)).
    + destruct Hnone as [-> | ]; [| lia]. reflexivity.
    + rewrite andb_false_r. reflexivity.
  - destruct (drop_two _ _ _ _ _ Hdrop) as (Hhi & Hlo & Hdrop2 & Hl).
    destruct (Z.leb_spec 2 version); [| lia]. cbn [andb].
    destruct (Nat.leb_spec (2 + bytesRead parsed + 2) (length payload)); [| lia].
    unfold readUInt16BE. rewrite Hhi, Hlo. cbn [bind].
    fold (deltaTimeOf hi lo). rewrite Hnz.
    destruct (Nat.leb_spec (2 + bytesRead parsed + 2 + bytesRead parsed)
                (length payload)); [| lia].
    cbn [andb]. unfold Buffer_concat, slice_from. cbn [concat app].
    rewrite app_nil_r, Hdrop2, Hprev. reflexivity.
Qed.

(** and every report the constructor returns has one of the shapes. *)
Lemma constructor_decoded
    (version : Z) (payload : Buffer) (r : MeterCCReport.t) :
  MeterCCReport.constructor parseFloatWithScale version payload = Ok r ->
  exists parsed,
    (2 <= length payload)%nat /\
    parseFloatWithScale (slice_from payload 1) = Ok parsed /\
    decoded parseFloatWithScale version payload parsed r.
Proof.
  unfold MeterCCReport.constructor, validatePayload.
  destruct (Nat.leb_spec 2 (length payload)) as [Hlen | ];
    [| intros Hthrow; discriminate Hthrow].
  cbn [bind].
  destruct (parseFloatWithScale (slice_from payload 1)) as [parsed | e]
    eqn:Hparsed; [| intros Hthrow; discriminate Hthrow].
  cbn [bind]. intros Hr. exists parsed. split; [assumption |].
  split; [reflexivity |].
  destruct (Z.leb_spec 2 version) as [Hv | Hv]; cbn [andb] in Hr.
  2:{ injection Hr as <-. apply decoded_no_delta_time. lia. }
  destruct (Nat.leb_spec (2 + bytesRead parsed + 2) (length payload))
    as [Hdelta | Hdelta].
  2:{ injection Hr as <-. apply decoded_no_delta_time. lia. }
  destruct (two_at payload (2 + bytesRead parsed)) as (hi & lo & rest & Hdrop);
    [lia |].
  destruct (drop_two _ _ _ _ _ Hdrop) as (Hhi & Hlo & Hdrop2 & Hl).
  unfold readUInt16BE in Hr. rewrite Hhi, Hlo in Hr. cbn [bind] in Hr.
  fold (deltaTimeOf hi lo) in Hr.
  destruct (MeterCCReport.deltaTime_nonzero (deltaTimeOf hi lo)) eqn:Hnz;
    cbn [andb] in Hr.
  2:{ injection Hr as <-. eapply decoded_delta_time; eauto. }
  destruct (Nat.leb_spec (2 + bytesRead parsed + 2 + bytesRead parsed)
              (length payload)) as [Hprev | Hprev].
  2:{ injection Hr as <-. eapply decoded_delta_time; eauto. right. lia. }
  unfold Buffer_concat, slice_from in Hr. cbn [concat app] in Hr.
  rewrite app_nil_r, Hdrop2 in Hr.
  destruct (parseFloatWithScale (byteAt payload 1 :: rest)) as [previous | e]
    eqn:Hprevious; [| discriminate Hr].
  injection Hr as <-. eapply decoded_previous_value; eauto. lia.
Qed.

End ReportLemmas.

Section ReportProperties.

Variable parseFloatWithScale : Buffer -> Result FloatWithScale.

(** When the payload ends less than two bytes after the offset
    [2 + bytesRead], no delta time is read, whatever the version: the report
    decodes with the delta time 0 and without a previous value.  This is so
    in particular when exactly two bytes follow the [bytesRead] bytes that
    were read from byte 1 on. *)
Lemma no_delta_time_before_offset
    (version : Z) (payload : Buffer) (parsed : FloatWithScale) :
  (2 <= length payload)%nat ->
  parseFloatWithScale (slice_from payload 1) = Ok parsed ->
  (length payload < 2 + bytesRead parsed + 2)%nat ->
  exists r,
    MeterCCReport.constructor parseFloatWithScale version payload = Ok r /\
    MeterCCReport._deltaTime r = Some (Known 0) /\
    MeterCCReport._previousValue r = None.
Proof.
  intros Hlen Hparsed Hshort. eexists. split.
  - apply (decoded_constructor _ _ _ parsed); [assumption | assumption |].
    apply decoded_no_delta_time. right. assumption.
  - split; reflexivity.
Qed.

(** With a version of at least 2, when the two bytes at the offset
    [2 + bytesRead] where the constructor reads the delta time are both 0,
    the report decodes, its delta time is 0 and it has no previous value,
    whatever bytes follow and however many. *)
Lemma zero_delta_time_at_offset
    (version : Z) (payload : Buffer) (parsed : FloatWithScale)
    (rest : Buffer) :
  2 <= version ->
  parseFloatWithScale (slice_from payload 1) = Ok parsed ->
  drop (2 + bytesRead parsed) payload = 0 :: 0 :: rest ->
  exists r,
    MeterCCReport.constructor parseFloatWithScale version payload = Ok r /\
    MeterCCReport._deltaTime r = Some (Known 0) /\
    MeterCCReport._previousValue r = None.
Proof.
  intros Hv Hparsed Hdrop.
  destruct (drop_two _ _ _ _ _ Hdrop) as (_ & _ & _ & Hlen).
  eexists. split.
  - apply (decoded_constructor _ _ _ parsed); [lia | assumption |].
    eapply decoded_delta_time; [assumption | eassumption |].
    left. reflexivity.
  - split; reflexivity.
Qed.

(** With a version of at least 2, when the two bytes at the offset
    [2 + bytesRead] where the constructor reads the delta time are both
    0xFF, the delta time is the unknown marker and not the number 65535.
    Reading it raises no error: the report decodes, provided the decoder of
    scaled values accepts the previous value in case enough bytes follow
    for the constructor to decode one. *)
Lemma unknown_delta_time_at_offset
    (version : Z) (payload : Buffer) (parsed : FloatWithScale)
    (rest : Buffer) :
  2 <= version ->
  parseFloatWithScale (slice_from payload 1) = Ok parsed ->
  drop (2 + bytesRead parsed) payload = 255 :: 255 :: rest ->
  ((bytesRead parsed <= length rest)%nat ->
   exists previous,
     parseFloatWithScale (byteAt payload 1 :: rest) = Ok previous) ->
  exists r,
    MeterCCReport.constructor parseFloatWithScale version payload = Ok r /\
    MeterCCReport._deltaTime r = Some unknownNumber /\
    MeterCCReport._deltaTime r <> Some (Known 65535).
Proof.
  intros Hv Hparsed Hdrop Hprevious.
  destruct (drop_two _ _ _ _ _ Hdrop) as (_ & _ & _ & Hlen).
  destruct (Nat.le_gt_cases (bytesRead parsed) (length rest)) as [Hle | Hgt].
  - destruct (Hprevious Hle) as [previous Hprev].
    eexists. split.
    + apply (decoded_constructor _ _ _ parsed); [lia | assumption |].
      eapply decoded_previous_value; eauto.
    + split; [reflexivity | discriminate].
  - eexists. split.
    + apply (decoded_constructor _ _ _ parsed); [lia | assumption |].
      eapply decoded_delta_time; eauto.
    + split; [reflexivity | discriminate].
Qed.

(** C9.  A report that decodes has its delta time assigned; and when the
    version is below 2, or fewer than 2 bytes are left at the offset
    [2 + bytesRead] where the constructor looks for the delta time, as is
    the case whenever fewer than 2 bytes follow the current value, the delta
    time is the number 0, not the unknown marker, and there is no previous
    value. *)
Theorem delta_time_always_defined
    (version : Z) (payload : Buffer) (r : MeterCCReport.t) :
  MeterCCReport.constructor parseFloatWithScale version payload = Ok r ->
  (exists d, MeterCCReport._deltaTime r = Some d) /\
  (forall parsed,
     parseFloatWithScale (slice_from payload 1) = Ok parsed ->
     version < 2 \/ (length payload < 2 + bytesRead parsed + 2)%nat ->
     MeterCCReport._deltaTime r = Some (Known 0) /\
     MeterCCReport._deltaTime r <> Some unknownNumber /\
     MeterCCReport._previousValue r = None).
Proof.
  intros Hr.
  apply constructor_decoded in Hr as (parsed & Hlen & Hparsed & Hdecoded).
  split.
  - destruct Hdecoded; eexists; reflexivity.
  - intros parsed' Hparsed' Hshort.
    rewrite Hparsed in Hparsed'. injection Hparsed' as <-.
    destruct Hdecoded as [_ | hi lo rest Hv Hdrop _
                          | hi lo rest previous Hv Hdrop _ _ _].
    + cbn. repeat split. discriminate.
    + destruct (drop_two _ _ _ _ _ Hdrop) as (_ & _ & _ & Hl). lia.
    + destruct (drop_two _ _ _ _ _ Hdrop) as (_ & _ & _ & Hl). lia.
Qed.

(** C7.  When a report decodes with a previous value, the current value is
    what the decoder of scaled values reads from byte 1 of the payload
    followed by bytes 2 onwards, and the previous value is what it reads
    from the same byte 1 followed by the bytes at the offset
    [2 + bytesRead + 2] reached after the delta time: the two values are
    decoded from one descriptor byte and differ in the bytes after it. *)
Theorem previous_value_shares_descriptor
    (version : Z) (payload : Buffer) (r : MeterCCReport.t)
    (previousValue : Decimal) :
  MeterCCReport.constructor parseFloatWithScale version payload = Ok r ->
  MeterCCReport._previousValue r = Some previousValue ->
  exists parsed previous,
    slice_from payload 1 = byteAt payload 1 :: drop 2 payload /\
    parseFloatWithScale (byteAt payload 1 :: drop 2 payload) = Ok parsed /\
    MeterCCReport._value r = value parsed /\
    Buffer_concat [[byteAt payload 1];
                   slice_from payload (2 + bytesRead parsed + 2)]
      = byteAt payload 1 :: drop (2 + bytesRead parsed + 2) payload /\
    parseFloatWithScale
      (byteAt payload 1 :: drop (2 + bytesRead parsed + 2) payload)
      = Ok previous /\
    previousValue = value previous.
Proof.
  intros Hr Hpv.
  apply constructor_decoded in Hr as (parsed & Hlen & Hparsed & Hdecoded).
  pose proof (slice_from_1 payload Hlen) as Hslice.
  destruct Hdecoded as [? | hi lo rest ? ? ?
                        | hi lo rest previous Hv Hdrop Hnz Hrest Hprev];
    cbn in Hpv; try discriminate Hpv.
  injection Hpv as <-.
  destruct (drop_two _ _ _ _ _ Hdrop) as (_ & _ & Hdrop2 & _).
  exists parsed, previous. rewrite <- Hslice, Hdrop2.
  repeat split; try assumption.
  unfold Buffer_concat, slice_from. cbn [concat app].
  rewrite app_nil_r, Hdrop2. reflexivity.
Qed.

(** Where the constructor reads the extension byte.  With a version of at
    least 4 and a composed scale of 7 it is the byte at the offset
    [2 + bytesRead + 2], or [2 + bytesRead + 2 + bytesRead] when a previous
    value is decoded: a byte [e] there gives the scale [7 + e], and a
    payload that ends before that offset gives the scale 7. *)
Lemma scale_extension_at_offset
    (version : Z) (payload : Buffer) (r : MeterCCReport.t)
    (parsed : FloatWithScale) :
  4 <= version ->
  MeterCCReport.constructor parseFloatWithScale version payload = Ok r ->
  parseFloatWithScale (slice_from payload 1) = Ok parsed ->
  MeterCCReport.scale1 payload (scale parsed) = 7 ->
  let offset :=
    (2 + bytesRead parsed + 2
     + match MeterCCReport._previousValue r with
       | Some _ => bytesRead parsed
       | None => 0
       end)%nat in
  (forall e : Z, payload !! offset = Some e -> MeterCCReport._scale r = 7 + e)
  /\ (payload !! offset = None -> MeterCCReport._scale r = 7).
Proof.
  intros Hv Hr Hparsed H7.
  apply constructor_decoded in Hr as (parsed' & Hlen & Hparsed' & Hdecoded).
  rewrite Hparsed in Hparsed'. injection Hparsed' as <-.
  assert (Hext : forall offset : nat,
            (forall e : Z, payload !! offset = Some e ->
               scaleWithExtension version payload 7 offset = 7 + e) /\
            (payload !! offset = None ->
               scaleWithExtension version payload 7 offset = 7)).
  { intros offset. unfold scaleWithExtension, byteAt.
    destruct (Z.leb_spec 4 version); [| lia]. cbn [andb Z.eqb Pos.eqb].
    split.
    - intros e He. pose proof (lookup_lt_Some _ _ _ He).
      destruct (Nat.leb_spec (offset + 1) (length payload)); [| lia].
      rewrite He. reflexivity.
    - intros Hnone. apply lookup_ge_None in Hnone.
      destruct (Nat.leb_spec (offset + 1) (length payload)); [lia |].
      reflexivity. }
  destruct Hdecoded as [Hshort | hi lo rest ? Hdrop ?
                        | hi lo rest previous ? Hdrop ? ? ?];
    cbn [MeterCCReport._previousValue MeterCCReport._scale]; rewrite H7.
  - destruct Hshort as [? | Hshort]; [lia |]. split.
    + intros e He. apply lookup_lt_Some in He. lia.
    + reflexivity.
  - rewrite Nat.add_0_r. apply Hext.
  - apply Hext.
Qed.

(** C1, as the constructor has it.  Take a version of at least 4 and a
    composed scale of 7.  A payload made of byte 0, the [bytesRead] bytes of
    the value and at most one more byte, whatever that byte is, decodes to
    the scale 7: the extension byte is read only after a delta time.  In
    every payload the scale is 7, or [7 + e] for a byte [e] of the payload
    that comes after the value and two more bytes. *)
Theorem scale_extension_needs_delta_time
    (version : Z) (payload : Buffer) (r : MeterCCReport.t)
    (parsed : FloatWithScale) :
  4 <= version ->
  MeterCCReport.constructor parseFloatWithScale version payload = Ok r ->
  parseFloatWithScale (slice_from payload 1) = Ok parsed ->
  MeterCCReport.scale1 payload (scale parsed) = 7 ->
  ((length payload <= 1 + bytesRead parsed + 1)%nat ->
   MeterCCReport._scale r = 7) /\
  (MeterCCReport._scale r = 7 \/
   exists e : Z,
     In e (drop (1 + bytesRead parsed + 2) payload) /\
     MeterCCReport._scale r = 7 + e).
Proof.
  intros Hv Hr Hparsed H7.
  apply constructor_decoded in Hr as (parsed' & Hlen & Hparsed' & Hdecoded).
  rewrite Hparsed in Hparsed'. injection Hparsed' as <-.
  assert (Hext : forall offset : nat,
            (1 + bytesRead parsed + 2 <= offset)%nat ->
            scaleWithExtension version payload 7 offset = 7 \/
            exists e : Z,
              In e (drop (1 + bytesRead parsed + 2) payload) /\
              scaleWithExtension version payload 7 offset = 7 + e).
  { intros offset Hoffset. unfold scaleWithExtension, byteAt, Buffer.
    destruct (Z.leb_spec 4 version); [| lia]. cbn [andb Z.eqb Pos.eqb].
    destruct (Nat.leb_spec (offset + 1) (length payload)) as [Hin | Hout];
      [| left; reflexivity].
    destruct (lookup_lt_is_Some_2 payload offset) as [e He]; [lia |].
    rewrite He. right. exists e. split; [| reflexivity].
    apply list_elem_of_In.
    apply (list_elem_of_lookup_2 _ (offset - (1 + bytesRead parsed + 2))%nat).
    rewrite lookup_drop.
    replace (1 + bytesRead parsed + 2
             + (offset - (1 + bytesRead parsed + 2)))%nat with offset by lia.
    exact He. }
  destruct Hdecoded as [Hshort | hi lo rest ? Hdrop ?
                        | hi lo rest previous ? Hdrop ? ? ?];
    cbn [MeterCCReport._scale]; rewrite H7.
  - split; [reflexivity | left; reflexivity].
  - destruct (drop_two _ _ _ _ _ Hdrop) as (_ & _ & _ & Hl).
    split; [lia | apply Hext; lia].
  - destruct (drop_two _ _ _ _ _ Hdrop) as (_ & _ & _ & Hl).
    split; [lia | apply Hext; lia].
Qed.

End ReportProperties.

(** ** The decoder of scaled values of the specification *)

(** Under one descriptor byte, the decoder that accepted the current value
    accepts any run of bytes at least as long, with the same precision,
    scale bits and byte count. *)
Lemma parseFloatWithScale_same_descriptor
    (descriptor : Z) (current rest : Buffer) (parsed : FloatWithScale) :
  parseFloatWithScale (descriptor :: current) = Ok parsed ->
  (bytesRead parsed <= length rest)%nat ->
  exists previous,
    parseFloatWithScale (descriptor :: rest) = Ok previous /\
    precision (value previous) = precision (value parsed) /\
    scale previous = scale parsed /\
    bytesRead previous = bytesRead parsed.
Proof.
  unfold parseFloatWithScale, validatePayload.
  change (byteAt (descriptor :: current) 0) with descriptor.
  change (byteAt (descriptor :: rest) 0) with descriptor.
  cbn [length Nat.leb bind].
  destruct (byteSize (Z.shiftr (Z.land descriptor 24) 3)) as [size |];
    [| intros Hthrow; discriminate Hthrow].
  destruct (Nat.leb_spec (1 + size) (S (length current)));
    [| intros Hthrow; discriminate Hthrow].
  cbn [bind]. intros [= <-] Hrest. cbn [bytesRead] in Hrest.
  destruct (Nat.leb_spec (1 + size) (S (length rest))); [| lia].
  cbn [bind]. eexists. split; [reflexivity |]. repeat split.
Qed.

(** With that decoder a previous value has the precision of the current
    value. *)
Lemma previous_value_same_precision
    (version : Z) (payload : Buffer) (r : MeterCCReport.t)
    (previousValue : Decimal) :
  MeterCCReport.constructor parseFloatWithScale version payload = Ok r ->
  MeterCCReport._previousValue r = Some previousValue ->
  precision previousValue = precision (MeterCCReport._value r).
Proof.
  intros Hr Hpv.
  apply constructor_decoded in Hr as (parsed & Hlen & Hparsed & Hdecoded).
  destruct Hdecoded as [? | hi lo rest ? ? ?
                        | hi lo rest previous Hv Hdrop Hnz Hrest Hprev];
    cbn in Hpv; try discriminate Hpv.
  injection Hpv as <-. cbn [MeterCCReport._value].
  pose proof (slice_from_1 payload Hlen) as Hslice.
  rewrite Hslice in Hparsed.
  destruct (parseFloatWithScale_same_descriptor _ _ rest _ Hparsed Hrest)
    as (previous' & Hprev' & Hprecision & _).
  rewrite Hprev in Hprev'. injection Hprev' as <-. exact Hprecision.
Qed.

(** A report whose delta time is read never fails on its previous value
    with that decoder. *)
Lemma previous_value_accepted
    (payload rest : Buffer) (parsed : FloatWithScale) :
  (2 <= length payload)%nat ->
  parseFloatWithScale (slice_from payload 1) = Ok parsed ->
  (bytesRead parsed <= length rest)%nat ->
  exists previous,
    parseFloatWithScale (byteAt payload 1 :: rest) = Ok previous.
Proof.
  intros Hlen Hparsed Hrest.
  pose proof (slice_from_1 payload Hlen) as Hslice.
  rewrite Hslice in Hparsed.
  destruct (parseFloatWithScale_same_descriptor _ _ rest _ Hparsed Hrest)
    as (previous & Hprev & _).
  eauto.
Qed.

(** That decoder counts the descriptor byte in [bytesRead]. *)
Lemma parseFloatWithScale_bytesRead
    (payload : Buffer) (parsed : FloatWithScale) :
  parseFloatWithScale payload = Ok parsed ->
  exists size,
    byteSize (Z.shiftr (Z.land (byteAt payload 0) 24) 3) = Some size /\
    bytesRead parsed = (1 + size)%nat /\
    (1 + size <= length payload)%nat /\
    magnitude (value parsed) = intBE (slice payload 1 (1 + size)).
Proof.
  unfold parseFloatWithScale, validatePayload.
  destruct (1 <=? length payload)%nat; [| intros Hthrow; discriminate Hthrow].
  cbn [bind].
  destruct (byteSize (Z.shiftr (Z.land (byteAt payload 0) 24) 3)) as [size |];
    [| intros Hthrow; discriminate Hthrow].
  destruct (Nat.leb_spec (1 + size) (length payload));
    [| intros Hthrow; discriminate Hthrow].
  cbn [bind]. intros [= <-]. exists size. repeat split. assumption.
Qed.

(** ** Decoding concrete reports with the decoder of the specification *)

(** C5, at the payload 01 09 05 FF FF under version 2.  The current value
    is the descriptor, byte 1, and its one magnitude byte, byte 2; the two
    bytes that remain after it are FF FF.  They are not read as the delta
    time, which comes out as the number 0: [bytesRead] counts the descriptor
    byte, so the offset [2 + bytesRead = 4] at which the constructor looks
    for the delta time is one byte past the end of the value, and a single
    byte is left there. *)
Theorem delta_time_ff_ff_after_value :
  parseFloatWithScale (slice_from [1; 9; 5; 255; 255] 1)
    = Ok (mkFloatWithScale 1 (mkDecimal 5 0) 2) /\
  drop (1 + 2) [1; 9; 5; 255; 255] = [255; 255] /\
  MeterCCReport.constructor parseFloatWithScale 2 [1; 9; 5; 255; 255]
    = Ok (MeterCCReport.mk 1 0 (mkDecimal 5 0) (Some (Known 0)) None 1).
Proof. repeat split. Qed.

(** C4, at the payload 01 09 05 00 00 01 07 07 under version 2.  The two
    bytes that follow the current value, bytes 3 and 4, are 00 00 and three
    more bytes remain.  The constructor reads the delta time from bytes 4
    and 5, one byte past the end of the value, finds 1 and decodes a
    previous value, 7, from the bytes after them. *)
Theorem delta_time_zero_after_value :
  parseFloatWithScale (slice_from [1; 9; 5; 0; 0; 1; 7; 7] 1)
    = Ok (mkFloatWithScale 1 (mkDecimal 5 0) 2) /\
  drop (1 + 2) [1; 9; 5; 0; 0; 1; 7; 7] = [0; 0; 1; 7; 7] /\
  MeterCCReport.constructor parseFloatWithScale 2 [1; 9; 5; 0; 0; 1; 7; 7]
    = Ok (MeterCCReport.mk 1 0 (mkDecimal 5 0) (Some (Known 1))
            (Some (mkDecimal 7 0)) 1).
Proof. repeat split. Qed.

(** C1, refuted: a version-4 payload made of byte 0 with the high scale
    bit, a descriptor with scale bits 3 and four magnitude bytes, and the
    extension byte 3 right after them.  The composed scale is 7 and the
    report decodes with scale 7, not 10. *)
Lemma extension_byte_without_delta_time :
  parseFloatWithScale (slice_from [129; 27; 0; 0; 0; 5; 3] 1)
    = Ok (mkFloatWithScale 3 (mkDecimal 5 0) 5) /\
  MeterCCReport.scale1 [129; 27; 0; 0; 0; 5; 3] 3 = 7 /\
  MeterCCReport.constructor parseFloatWithScale 4 [129; 27; 0; 0; 0; 5; 3]
    = Ok (MeterCCReport.mk 1 0 (mkDecimal 5 0) (Some (Known 0)) None 7) /\
  7 <> 10.
Proof. repeat split; try reflexivity. lia. Qed.

Lemma scale_extension_needs_delta_time_witness :
  MeterCCReport._scale
    (MeterCCReport.mk 1 0 (mkDecimal 5 0) (Some (Known 0)) None 7) = 7 /\
  (exists r,
     MeterCCReport.constructor parseFloatWithScale 4 [129; 27; 0; 0; 0; 5]
       = Ok r /\
     MeterCCReport._scale r = 7).
Proof.
  split.
  - apply (proj1
             (scale_extension_needs_delta_time parseFloatWithScale 4
                [129; 27; 0; 0; 0; 5; 3]
                (MeterCCReport.mk 1 0 (mkDecimal 5 0) (Some (Known 0)) None 7)
                (mkFloatWithScale 3 (mkDecimal 5 0) 5)
                ltac:(lia) eq_refl eq_refl eq_refl)).
    simpl. lia.
  - exists (MeterCCReport.mk 1 0 (mkDecimal 5 0) (Some (Known 0)) None 7).
    split; [reflexivity |].
    apply (proj1
             (scale_extension_needs_delta_time parseFloatWithScale 4
                [129; 27; 0; 0; 0; 5] _
                (mkFloatWithScale 3 (mkDecimal 5 0) 5)
                ltac:(lia) eq_refl eq_refl eq_refl)).
    simpl. lia.
Defined.

Lemma scale_extension_at_offset_witness :
  (exists r,
     MeterCCReport.constructor parseFloatWithScale 4
       [129; 11; 5; 0; 0; 1; 8; 8; 3] = Ok r /\
     MeterCCReport._scale r = 7 + 3) /\
  (exists r,
     MeterCCReport.constructor parseFloatWithScale 4
       [129; 11; 5; 0; 0; 1; 8; 8] = Ok r /\
     MeterCCReport._scale r = 7).
Proof.
  split.
  - exists (MeterCCReport.mk 1 0 (mkDecimal 5 0) (Some (Known 1))
              (Some (mkDecimal 8 0)) 10).
    split; [reflexivity |].
    apply (proj1
             (scale_extension_at_offset parseFloatWithScale 4
                [129; 11; 5; 0; 0; 1; 8; 8; 3] _
                (mkFloatWithScale 3 (mkDecimal 5 0) 2)
                ltac:(lia) eq_refl eq_refl eq_refl)).
    reflexivity.
  - exists (MeterCCReport.mk 1 0 (mkDecimal 5 0) (Some (Known 1))
              (Some (mkDecimal 8 0)) 7).
    split; [reflexivity |].
    apply (proj2
             (scale_extension_at_offset parseFloatWithScale 4
                [129; 11; 5; 0; 0; 1; 8; 8] _
                (mkFloatWithScale 3 (mkDecimal 5 0) 2)
                ltac:(lia) eq_refl eq_refl eq_refl)).
    reflexivity.
Defined.

Lemma delta_time_always_defined_witness :
  (exists d,
     MeterCCReport._deltaTime
       (MeterCCReport.mk 1 0 (mkDecimal 5 0) (Some (Known 0)) None 0)
     = Some d) /\
  MeterCCReport._deltaTime
    (MeterCCReport.mk 1 0 (mkDecimal 5 0) (Some (Known 0)) None 0)
  = Some (Known 0).
Proof.
  destruct (delta_time_always_defined parseFloatWithScale 1
              [1; 8; 5; 0; 255; 255]
              (MeterCCReport.mk 1 0 (mkDecimal 5 0) (Some (Known 0)) None 0)
              eq_refl) as [Hdefined Hzero].
  split; [exact Hdefined |].
  apply (Hzero (mkFloatWithScale 0 (mkDecimal 5 0) 2)); [reflexivity |].
  left. lia.
Defined.

Lemma previous_value_shares_descriptor_witness :
  exists parsed previous : FloatWithScale,
    parseFloatWithScale (11 :: [5; 0; 0; 1; 8; 8; 3]) = Ok parsed /\
    parseFloatWithScale (11 :: drop (2 + bytesRead parsed + 2)
                                 [129; 11; 5; 0; 0; 1; 8; 8; 3])
      = Ok previous /\
    mkDecimal 8 0 = value previous.
Proof.
  destruct (previous_value_shares_descriptor parseFloatWithScale 4
              [129; 11; 5; 0; 0; 1; 8; 8; 3]
              (MeterCCReport.mk 1 0 (mkDecimal 5 0) (Some (Known 1))
                 (Some (mkDecimal 8 0)) 10)
              (mkDecimal 8 0) eq_refl eq_refl)
    as (parsed & previous & _ & Hparsed & _ & _ & Hprevious & Hvalue).
  exists parsed, previous. repeat split; assumption.
Defined.

(** ** MeterCCGet *)

Lemma ToInt32_small (x : Z) : 0 <= x < 2 ^ 31 -> ToInt32 x = x.
Proof.
  intros Hx. unfold ToInt32. rewrite Z.mod_small by lia.
  destruct (Z.leb_spec (2 ^ 31) x); [lia | reflexivity].
Qed.

Lemma ToInt32_mod (x k : Z) :
  0 <= k <= 32 -> ToInt32 x mod 2 ^ k = x mod 2 ^ k.
Proof.
  intros Hk. unfold ToInt32.
  assert (Hdiv : (2 ^ k | 2 ^ 32)).
  { exists (2 ^ (32 - k)). rewrite <- Z.pow_add_r by lia. f_equal. lia. }
  assert (Hpos : 0 < 2 ^ k) by (apply Z.pow_pos_nonneg; lia).
  assert (Hu : (x mod 2 ^ 32) mod 2 ^ k = x mod 2 ^ k).
  { apply Z.mod_mod_divide. exact Hdiv. }
  destruct (2 ^ 31 <=? x mod 2 ^ 32); [| exact Hu].
  destruct Hdiv as [q Hq]. rewrite Hq.
  replace (x mod (q * 2 ^ k) - q * 2 ^ k)
    with (x mod (q * 2 ^ k) + (- q) * 2 ^ k) by lia.
  rewrite Z.mod_add by lia. rewrite <- Hq. exact Hu.
Qed.

(** [x & 0b111] and [x & 0b11] keep the low bits of [x]. *)
Lemma js_and_7 (x : Z) : js_and x 7 = x mod 8.
Proof.
  unfold js_and. rewrite (ToInt32_small 7) by lia.
  change 7 with (Z.ones 3). rewrite Z.land_ones by lia.
  apply (ToInt32_mod x 3). lia.
Qed.

Lemma js_and_3 (x : Z) : js_and x 3 = x mod 4.
Proof.
  unfold js_and. rewrite (ToInt32_small 3) by lia.
  change 3 with (Z.ones 2). rewrite Z.land_ones by lia.
  apply (ToInt32_mod x 2). lia.
Qed.

(** Byte 0 of the payload of a Get, from the rate-type flags and the scale
    field. *)
Lemma get_byte_0 (rateTypeFlags scale1 : Z) :
  0 <= rateTypeFlags < 4 -> 0 <= scale1 < 8 ->
  js_or (js_shl rateTypeFlags 6) (js_shl scale1 3) mod 256
  = rateTypeFlags * 64 + scale1 * 8.
Proof.
  intros Hr Hs.
  assert (Hrc : rateTypeFlags = 0 \/ rateTypeFlags = 1 \/ rateTypeFlags = 2
                \/ rateTypeFlags = 3) by lia.
  assert (Hsc : scale1 = 0 \/ scale1 = 1 \/ scale1 = 2 \/ scale1 = 3
                \/ scale1 = 4 \/ scale1 = 5 \/ scale1 = 6 \/ scale1 = 7) by lia.
  repeat (destruct Hrc as [-> | Hrc]); try subst rateTypeFlags;
    repeat (destruct Hsc as [-> | Hsc]); try subst scale1; reflexivity.
Qed.

(** What [serialize] produces with a version of at least 4 and a scale of
    at least 7: two bytes, the scale field 7 in bits 5..3 of byte 0 under
    the rate-type flags, and [scale >>> 3] as the second byte. *)
Lemma get_serialize_extended (this : MeterCCGet.t) (s : Z) :
  4 <= MeterCCGet.version this ->
  MeterCCGet.scale this = Some s ->
  7 <= s ->
  MeterCCGet.serialize this =
    Ok [match MeterCCGet.rateType this with
        | Some r => r mod 4
        | None => 0
        end * 64 + 56;
        js_ushr s 3 mod 256].
Proof.
  intros Hv Hs H7. unfold MeterCCGet.serialize. rewrite Hs.
  destruct (Z.leb_spec 4 (MeterCCGet.version this)); [| lia].
  destruct (Z.leb_spec 7 s); [| lia]. cbn [andb].
  assert (Hp : forall flags, 0 <= flags < 4 ->
            (if js_ushr s 3 =? 0
             then Buffer_set (Buffer_alloc 2) 0 (js_or (js_shl flags 6) (js_shl 7 3))
             else Buffer_set
                    (Buffer_set (Buffer_alloc 2) 0
                       (js_or (js_shl flags 6) (js_shl 7 3))) 1 (js_ushr s 3))
            = [flags * 64 + 56; js_ushr s 3 mod 256]).
  { intros flags Hflags. unfold Buffer_set, Buffer_alloc. cbn [replicate].
    rewrite get_byte_0 by lia.
    destruct (Z.eqb_spec (js_ushr s 3) 0) as [-> | _]; reflexivity. }
  destruct (MeterCCGet.rateType this) as [r |].
  - cbn [Nat.max]. rewrite js_and_3. f_equal. apply Hp.
    apply Z.mod_pos_bound. lia.
  - f_equal. apply (Hp 0). lia.
Qed.

(** From scale 9 on that second byte is below [scale - 7]. *)
Lemma get_extension_byte_below (s : Z) : 9 <= s -> js_ushr s 3 mod 256 < s - 7.
Proof.
  intros Hs. unfold js_ushr, ToUint32.
  change (3 mod 32) with 3. rewrite Z.shiftr_div_pow2 by lia.
  change (2 ^ 3) with 8.
  pose proof (Z.mod_le s (2 ^ 32) ltac:(lia) ltac:(lia)) as Hu.
  pose proof (Z.mod_pos_bound s (2 ^ 32) ltac:(lia)) as Hu0.
  pose proof (Z.mul_div_le (s mod 2 ^ 32) 8 ltac:(lia)) as Hq.
  assert (Hq0 : 0 <= s mod 2 ^ 32 / 8) by (apply Z.div_pos; lia).
  pose proof (Z.mod_le (s mod 2 ^ 32 / 8) 256 Hq0 ltac:(lia)) as Hm.
  lia.
Qed.

(** C2, at scale 10 under version 4: the payload has two bytes and the
    scale field is 7, but the second byte is [10 >>> 3 = 1] and not
    [10 - 7 = 3]. *)
Theorem get_scale_10_extension_byte :
  MeterCCGet.serialize (MeterCCGet.mk 4 None (Some 10)) = Ok [56; 1] /\
  Z.land (Z.shiftr 56 3) 7 = 7 /\
  1 <> 10 - 7.
Proof. split; [reflexivity | split; [reflexivity | lia]]. Qed.

(** C8, refuted: under version 3 a Get with scale 9 is encoded, with the
    scale field 1, and nothing is thrown. *)
Lemma get_scale_9_version_3_encoded :
  MeterCCGet.serialize (MeterCCGet.mk 3 None (Some 9)) = Ok [8] /\
  forall e, MeterCCGet.serialize (MeterCCGet.mk 3 None (Some 9)) <> Throw e.
Proof. split; [reflexivity | intros e; discriminate]. Qed.

(** C8, as the code has it.  A Get with a scale of at least 7 under a
    version below 4 is encoded without an error: version 3 keeps the low 3
    bits of the scale and version 2 its low 2 bits, in bits 5..3 of the one
    byte of the payload, and a lower version gives the empty payload. *)
Theorem get_scale_masked_below_version_4 (this : MeterCCGet.t) (s : Z) :
  MeterCCGet.scale this = Some s ->
  7 <= s ->
  MeterCCGet.version this < 4 ->
  MeterCCGet.serialize this =
    Ok (if 3 <=? MeterCCGet.version this then [s mod 8 * 8]
        else if 2 <=? MeterCCGet.version this then [s mod 4 * 8]
        else []).
Proof.
  intros Hs H7 Hv. unfold MeterCCGet.serialize. rewrite Hs.
  destruct (Z.leb_spec 4 (MeterCCGet.version this)); [lia |]. cbn [andb].
  assert (Hflags :
            match MeterCCGet.rateType this with
            | Some r => (0, 1%nat)
            | None => (0, 1%nat)
            end = (0, 1%nat)) by (destruct (MeterCCGet.rateType this); reflexivity).
  assert (Hflags0 :
            match MeterCCGet.rateType this with
            | Some r => (0, 0%nat)
            | None => (0, 0%nat)
            end = (0, 0%nat)) by (destruct (MeterCCGet.rateType this); reflexivity).
  destruct (Z.leb_spec 3 (MeterCCGet.version this)).
  - rewrite Hflags. unfold Buffer_set, Buffer_alloc. cbn [replicate].
    rewrite js_and_7.
    change (<[0%nat := ?v]> [0]) with [v].
    rewrite (get_byte_0 0 (s mod 8)) by (try apply Z.mod_pos_bound; lia).
    reflexivity.
  - destruct (Z.leb_spec 2 (MeterCCGet.version this)).
    + rewrite Hflags. unfold Buffer_set, Buffer_alloc. cbn [replicate].
      rewrite js_and_3.
      rewrite (get_byte_0 0 (s mod 4))
        by (pose proof (Z.mod_pos_bound s 4); lia).
      reflexivity.
    + rewrite Hflags0. reflexivity.
Qed.

Lemma get_scale_masked_below_version_4_witness :
  MeterCCGet.serialize (MeterCCGet.mk 3 (Some 2) (Some 10)) = Ok [16] /\
  MeterCCGet.serialize (MeterCCGet.mk 2 None (Some 10)) = Ok [16] /\
  MeterCCGet.serialize (MeterCCGet.mk 1 None (Some 10)) = Ok [].
Proof.
  split; [| split].
  - apply (get_scale_masked_below_version_4
             (MeterCCGet.mk 3 (Some 2) (Some 10)) 10); [reflexivity | lia | simpl; lia].
  - apply (get_scale_masked_below_version_4
             (MeterCCGet.mk 2 None (Some 10)) 10); [reflexivity | lia | simpl; lia].
  - apply (get_scale_masked_below_version_4
             (MeterCCGet.mk 1 None (Some 10)) 10); [reflexivity | lia | simpl; lia].
Defined.

Lemma wf_Buffer_alloc (n : nat) : wf_buffer (Buffer_alloc n).
Proof.
  unfold wf_buffer, Buffer_alloc.
  induction n as [| n IH]; cbn [replicate]; constructor; [lia | exact IH].
Qed.

Lemma wf_Buffer_set (buf : Buffer) (i : nat) (v : Z) :
  wf_buffer buf -> wf_buffer (Buffer_set buf i v).
Proof.
  unfold wf_buffer, Buffer_set. intros Hbuf.
  apply Forall_insert; [assumption |]. apply Z.mod_pos_bound. lia.
Qed.

(** [serialize] never throws, and what it returns is a buffer of bytes. *)
Lemma serialize_total (this : MeterCCGet.t) :
  exists payload,
    MeterCCGet.serialize this = Ok payload /\ wf_buffer payload /\
    (length payload <= 2)%nat.
Proof.
  unfold MeterCCGet.serialize.
  destruct (match MeterCCGet.scale this with
            | Some s => _
            | None => _
            end) as [[scale1 scale2] bufferLength] eqn:Hscale.
  assert (Hlen : (bufferLength <= 2)%nat).
  { destruct (MeterCCGet.scale this);
      repeat match type of Hscale with
             | (if ?c then _ else _) = _ => destruct c
             end; injection Hscale as <- <- <-; lia. }
  destruct (match MeterCCGet.rateType this with
            | Some r => _
            | None => _
            end) as [rateTypeFlags bufferLength'] eqn:Hrate.
  assert (Hlen' : (bufferLength' <= 2)%nat).
  { destruct (MeterCCGet.rateType this);
      repeat match type of Hrate with
             | (if ?c then _ else _) = _ => destruct c
             end; injection Hrate as <- <-; lia. }
  eexists. split; [reflexivity |]. split.
  - destruct scale2 as [s2 |]; [destruct (s2 =? 0) |];
      repeat apply wf_Buffer_set; apply wf_Buffer_alloc.
  - destruct scale2 as [s2 |]; [destruct (s2 =? 0) |];
      unfold Buffer_set, Buffer_alloc, Buffer;
      rewrite ?length_insert, length_replicate; exact Hlen'.
Qed.
(** * Further properties *)

(** ** More on MeterCCReport *)

Section ReportMore.

Variable parseFloatWithScale : Buffer -> Result FloatWithScale.

(** The constructor looks at the version through the two tests [>= 2] and
    [>= 4] only. *)
Theorem report_version_classes (version : Z) (payload : Buffer) :
  (4 <= version ->
   MeterCCReport.constructor parseFloatWithScale version payload
   = MeterCCReport.constructor parseFloatWithScale 4 payload) /\
  (2 <= version < 4 ->
   MeterCCReport.constructor parseFloatWithScale version payload
   = MeterCCReport.constructor parseFloatWithScale 2 payload) /\
  (version < 2 ->
   MeterCCReport.constructor parseFloatWithScale version payload
   = MeterCCReport.constructor parseFloatWithScale 1 payload).
Proof.
  unfold MeterCCReport.constructor.
  repeat split; intros Hv;
    destruct (Z.leb_spec 2 version); try lia;
    destruct (Z.leb_spec 4 version); try lia; reflexivity.
Qed.

(** Where a throw of the constructor comes from. *)
Lemma constructor_throws
    (version : Z) (payload : Buffer) (e : ZWaveErrorCodes) :
  MeterCCReport.constructor parseFloatWithScale version payload = Throw e ->
  ((length payload < 2)%nat /\ e = PayloadTooShort) \/
  parseFloatWithScale (slice_from payload 1) = Throw e \/
  (exists parsed,
     parseFloatWithScale (slice_from payload 1) = Ok parsed /\
     2 <= version /\
     (2 + bytesRead parsed + 2 + bytesRead parsed <= length payload)%nat /\
     parseFloatWithScale
       (byteAt payload 1 :: drop (2 + bytesRead parsed + 2) payload)
     = Throw e).
Proof.
  unfold MeterCCReport.constructor, validatePayload.
  destruct (Nat.leb_spec 2 (length payload)) as [Hlen | Hlen].
  2:{ intros [= <-]. left. split; [assumption | reflexivity]. }
  cbn [bind].
  destruct (parseFloatWithScale (slice_from payload 1)) as [parsed | e']
    eqn:Hparsed.
  2:{ intros [= <-]. right. left. reflexivity. }
  cbn [bind]. intros Hr. right. right. exists parsed.
  split; [reflexivity |].
  destruct (Z.leb_spec 2 version) as [Hv | Hv]; cbn [andb] in Hr;
    [| discriminate Hr].
  destruct (Nat.leb_spec (2 + bytesRead parsed + 2) (length payload))
    as [Hdelta | Hdelta]; [| discriminate Hr].
  destruct (two_at payload (2 + bytesRead parsed)) as (hi & lo & rest & Hdrop);
    [lia |].
  destruct (drop_two _ _ _ _ _ Hdrop) as (Hhi & Hlo & Hdrop2 & Hl).
  unfold readUInt16BE in Hr. rewrite Hhi, Hlo in Hr. cbn [bind] in Hr.
  destruct (MeterCCReport.deltaTime_nonzero _); cbn [andb] in Hr;
    [| discriminate Hr].
  destruct (Nat.leb_spec (2 + bytesRead parsed + 2 + bytesRead parsed)
              (length payload)) as [Hprev | Hprev]; [| discriminate Hr].
  unfold Buffer_concat, slice_from in Hr. cbn [concat app] in Hr.
  rewrite app_nil_r in Hr.
  destruct (parseFloatWithScale
              (byteAt payload 1 :: drop (2 + bytesRead parsed + 2) payload))
    as [previous | e'] eqn:Hprevious; [discriminate Hr |].
  injection Hr as <-. repeat split; assumption.
Qed.

(** Every failure of the constructor is the length validation or a failure
    of the decoder of scaled values, on the current value or on the previous
    value: the read of the delta time never leaves the payload. *)
Theorem report_failures
    (version : Z) (payload : Buffer) (e : ZWaveErrorCodes) :
  MeterCCReport.constructor parseFloatWithScale version payload = Throw e ->
  ((length payload < 2)%nat /\ e = PayloadTooShort) \/
  parseFloatWithScale (slice_from payload 1) = Throw e \/
  (exists parsed,
     parseFloatWithScale (slice_from payload 1) = Ok parsed /\
     2 <= version /\
     (2 + bytesRead parsed + 2 + bytesRead parsed <= length payload)%nat /\
     parseFloatWithScale
       (byteAt payload 1 :: drop (2 + bytesRead parsed + 2) payload)
     = Throw e).
Proof. apply constructor_throws. Qed.

(** A previous value is there only under a version of at least 2 and with a
    delta time that is assigned and is not the number 0. *)
Theorem previous_value_needs_delta_time
    (version : Z) (payload : Buffer) (r : MeterCCReport.t)
    (previousValue : Decimal) :
  MeterCCReport.constructor parseFloatWithScale version payload = Ok r ->
  MeterCCReport._previousValue r = Some previousValue ->
  2 <= version /\
  exists deltaTime,
    MeterCCReport._deltaTime r = Some deltaTime /\ deltaTime <> Known 0.
Proof.
  intros Hr Hpv.
  apply constructor_decoded in Hr as (parsed & Hlen & Hparsed & Hdecoded).
  destruct Hdecoded as [? | hi lo rest ? ? ?
                        | hi lo rest previous Hv Hdrop Hnz Hrest Hprev];
    cbn in Hpv; try discriminate Hpv.
  split; [assumption |]. eexists. split; [reflexivity |].
  intros Hzero. rewrite Hzero in Hnz. discriminate Hnz.
Qed.

(** The scale is extended only under a version of at least 4 and for the
    composed scale 7: otherwise the scale of the report is the composed
    scale. *)
Theorem scale_not_extended
    (version : Z) (payload : Buffer) (r : MeterCCReport.t)
    (parsed : FloatWithScale) :
  MeterCCReport.constructor parseFloatWithScale version payload = Ok r ->
  parseFloatWithScale (slice_from payload 1) = Ok parsed ->
  version < 4 \/ MeterCCReport.scale1 payload (scale parsed) <> 7 ->
  MeterCCReport._scale r = MeterCCReport.scale1 payload (scale parsed).
Proof.
  intros Hr Hparsed Hcase.
  apply constructor_decoded in Hr as (parsed' & Hlen & Hparsed' & Hdecoded).
  rewrite Hparsed in Hparsed'. injection Hparsed' as <-.
  assert (Hext : forall offset,
            scaleWithExtension version payload
              (MeterCCReport.scale1 payload (scale parsed)) offset
            = MeterCCReport.scale1 payload (scale parsed)).
  { intros offset. unfold scaleWithExtension.
    destruct (Z.eqb_spec (MeterCCReport.scale1 payload (scale parsed)) 7)
      as [H7 | H7]; [| reflexivity].
    destruct Hcase as [Hv | Hne]; [| contradiction].
    destruct (Z.leb_spec 4 version); [lia |]. cbn [andb]. lia. }
  destruct Hdecoded; cbn [MeterCCReport._scale]; try apply Hext.
  destruct (MeterCCReport.scale1 payload (scale parsed) =? 7); lia.
Qed.

End ReportMore.

(** ** Fields of byte 0 *)

Lemma land_31_mod (b : Z) : Z.land b 31 = b mod 32.
Proof. change 31 with (Z.ones 5). rewrite Z.land_ones by lia. reflexivity. Qed.

Lemma rate_field_mod (b : Z) : Z.shiftr (Z.land b 96) 5 = (b / 32) mod 4.
Proof.
  rewrite Z.shiftr_land. change (Z.shiftr 96 5) with (Z.ones 2).
  rewrite Z.land_ones by lia. rewrite Z.shiftr_div_pow2 by lia. reflexivity.
Qed.

Lemma uint16_bounds (hi lo : Z) :
  0 <= hi < 256 -> 0 <= lo < 256 ->
  0 <= Z.lor (Z.shiftl hi 8) lo < 65536.
Proof.
  intros Hhi Hlo.
  assert (Hs : 0 <= Z.shiftl hi 8 < 65536)
    by (rewrite Z.shiftl_mul_pow2 by lia; change (2 ^ 8) with 256; lia).
  split; [apply Z.lor_nonneg; lia |].
  destruct (Z.eq_dec (Z.lor (Z.shiftl hi 8) lo) 0) as [-> | Hnz]; [lia |].
  assert (Hpos : 0 < Z.lor (Z.shiftl hi 8) lo).
  { assert (0 <= Z.lor (Z.shiftl hi 8) lo) by (apply Z.lor_nonneg; lia). lia. }
  change 65536 with (2 ^ 16). apply Z.log2_lt_pow2; [assumption |].
  rewrite Z.log2_lor by lia.
  apply Z.max_lub_lt.
  - destruct (Z.eq_dec (Z.shiftl hi 8) 0) as [-> | ?]; [reflexivity |].
    apply Z.log2_lt_pow2; lia.
  - destruct (Z.eq_dec lo 0) as [-> | ?]; [reflexivity |].
    apply Z.log2_lt_pow2; lia.
Qed.

Section ReportFields.

Variable parseFloatWithScale : Buffer -> Result FloatWithScale.

(** The meter type is the low five bits of byte 0 and the rate type its
    bits 6 and 5: the rate type can be 3, which [RateType] does not
    name. *)
Theorem report_byte_0_fields
    (version : Z) (payload : Buffer) (r : MeterCCReport.t) :
  MeterCCReport.constructor parseFloatWithScale version payload = Ok r ->
  MeterCCReport._type r = byteAt payload 0 mod 32 /\
  MeterCCReport._rateType r = (byteAt payload 0 / 32) mod 4 /\
  0 <= MeterCCReport._type r < 32 /\
  0 <= MeterCCReport._rateType r < 4.
Proof.
  intros Hr.
  apply constructor_decoded in Hr as (parsed & _ & _ & Hdecoded).
  assert (Ht : 0 <= byteAt payload 0 mod 32 < 32)
    by (apply Z.mod_pos_bound; lia).
  assert (Hrt : 0 <= (byteAt payload 0 / 32) mod 4 < 4)
    by (apply Z.mod_pos_bound; lia).
  destruct Hdecoded; cbn [MeterCCReport._type MeterCCReport._rateType];
    rewrite land_31_mod, rate_field_mod; auto.
Qed.

(** A delta time that is a number is below 65535, in a payload of bytes. *)
Theorem delta_time_range
    (version : Z) (payload : Buffer) (r : MeterCCReport.t) (d : Z) :
  wf_buffer payload ->
  MeterCCReport.constructor parseFloatWithScale version payload = Ok r ->
  MeterCCReport._deltaTime r = Some (Known d) ->
  0 <= d < 65535.
Proof.
  intros Hwf Hr Hd.
  apply constructor_decoded in Hr as (parsed & _ & _ & Hdecoded).
  assert (Hrange : forall hi lo rest,
            drop (2 + bytesRead parsed) payload = hi :: lo :: rest ->
            deltaTimeOf hi lo = Known d -> 0 <= d < 65535).
  { intros hi lo rest Hdrop Hdt.
    destruct (drop_two _ _ _ _ _ Hdrop) as (Hhi & Hlo & _ & _).
    unfold wf_buffer in Hwf. rewrite Forall_forall in Hwf.
    assert (Hhib : 0 <= hi < 256).
    { apply Hwf. eapply list_elem_of_lookup_2. exact Hhi. }
    assert (Hlob : 0 <= lo < 256).
    { apply Hwf. eapply list_elem_of_lookup_2. exact Hlo. }
    pose proof (uint16_bounds hi lo Hhib Hlob) as Hb.
    unfold deltaTimeOf in Hdt.
    destruct (Z.eqb_spec (Z.lor (Z.shiftl hi 8) lo) 65535); [discriminate |].
    injection Hdt as <-. lia. }
  destruct Hdecoded as [? | hi lo rest ? Hdrop ?
                        | hi lo rest previous ? Hdrop ? ? ?];
    cbn [MeterCCReport._deltaTime] in Hd.
  - injection Hd as <-. lia.
  - injection Hd as Hd. eauto.
  - injection Hd as Hd. eauto.
Qed.

End ReportFields.

(** ** With the decoder of the specification *)

Lemma parseFloatWithScale_throws (payload : Buffer) (e : ZWaveErrorCodes) :
  parseFloatWithScale payload = Throw e -> e = PayloadTooShort.
Proof.
  unfold parseFloatWithScale, validatePayload.
  destruct (1 <=? length payload)%nat; cbn [bind]; [| intros [= <-]; reflexivity].
  destruct (byteSize _) as [size |]; [| intros [= <-]; reflexivity].
  destruct (1 + size <=? length payload)%nat; cbn [bind];
    [discriminate | intros [= <-]; reflexivity].
Qed.

(** With that decoder the constructor succeeds exactly when the current
    value decodes, and its one failure is a payload too short. *)
Theorem report_decodes_iff (version : Z) (payload : Buffer) :
  ((exists r,
      MeterCCReport.constructor parseFloatWithScale version payload = Ok r)
   <-> exists parsed, parseFloatWithScale (slice_from payload 1) = Ok parsed)
  /\
  (forall e,
     MeterCCReport.constructor parseFloatWithScale version payload = Throw e ->
     e = PayloadTooShort).
Proof.
  assert (Hfail : forall e,
            MeterCCReport.constructor parseFloatWithScale version payload
            = Throw e ->
            e = PayloadTooShort /\
            forall parsed, parseFloatWithScale (slice_from payload 1)
                           <> Ok parsed).
  { intros e He. apply constructor_throws in He
      as [[Hlen ->] | [Hcur | (parsed & Hparsed & _ & Hlen & Hprev)]].
    - split; [reflexivity |]. intros parsed Hparsed.
      apply parseFloatWithScale_bytesRead in Hparsed as (size & _ & _ & Hl & _).
      unfold slice_from in Hl. rewrite length_drop in Hl. lia.
    - split; [eapply parseFloatWithScale_throws; eassumption |].
      intros parsed Hparsed. congruence.
    - exfalso.
      assert (Hlen2 : (2 <= length payload)%nat) by lia.
      destruct (previous_value_accepted payload
                  (drop (2 + bytesRead parsed + 2) payload) parsed Hlen2 Hparsed)
        as [previous Hok]; [rewrite length_drop; lia | congruence]. }
  split.
  - split.
    + intros [r Hr].
      apply constructor_decoded in Hr as (parsed & _ & Hparsed & _). eauto.
    + intros [parsed Hparsed].
      destruct (MeterCCReport.constructor parseFloatWithScale version payload)
        as [r | e] eqn:Hr; [eauto |].
      destruct (Hfail e eq_refl) as [_ Hno]. exfalso. eapply Hno; eassumption.
  - intros e He. apply (Hfail e He).
Qed.

(** ** More on MeterCCSupportedReport *)

(** The constructor succeeds exactly on a payload of two bytes or more
    that, when bit 7 of byte 1 announces more scales, holds byte 2 and the
    bytes it counts; its one failure is a payload too short. *)
Theorem supported_report_decodes_iff (payload : Buffer) :
  ((exists r, MeterCCSupportedReport.constructor payload = Ok r) <->
   (2 <= length payload)%nat /\
   (Z.testbit (byteAt payload 1) 7 = false \/
    ((3 <= length payload)%nat /\
     3 + byteAt payload 2 <= Z.of_nat (length payload)))) /\
  (forall e,
     MeterCCSupportedReport.constructor payload = Throw e ->
     e = PayloadTooShort).
Proof.
  unfold MeterCCSupportedReport.constructor, validatePayload.
  destruct (Nat.leb_spec 2 (length payload)) as [Hlen | Hlen]; cbn [bind].
  2:{ split; [| intros e [= <-]; reflexivity].
      split; [intros [r Hr]; discriminate Hr | intros [H _]; lia]. }
  rewrite land_128_testbit, negb_involutive.
  destruct (Z.testbit (byteAt payload 1) 7).
  2:{ cbn [bind]. split; [| intros e He; discriminate He].
      split; [auto | intros _; eexists; reflexivity]. }
  destruct (Nat.leb_spec 3 (length payload)) as [Hlen3 | Hlen3]; cbn [bind].
  2:{ split; [| intros e [= <-]; reflexivity].
      split; [intros [r Hr]; discriminate Hr |].
      intros [_ [H | [H _]]]; [discriminate H | lia]. }
  destruct (Z.leb_spec (3 + byteAt payload 2) (Z.of_nat (length payload)))
    as [Hextra | Hextra]; cbn [bind].
  - split; [| intros e He; discriminate He].
    split; [auto 6 | intros _; eexists; reflexivity].
  - split; [| intros e [= <-]; reflexivity].
    split; [intros [r Hr]; discriminate Hr |].
    intros [_ [H | [_ H]]]; [discriminate H | lia].
Qed.

(** In the compact form the supported scales are the bits set among bits 0
    to 6 of byte 1. *)
Theorem compact_supported_scales
    (payload : Buffer) (r : MeterCCSupportedReport.t) (i : Z) :
  MeterCCSupportedReport.constructor payload = Ok r ->
  Z.testbit (byteAt payload 1) 7 = false ->
  (In i (MeterCCSupportedReport._supportedScales r) <->
   0 <= i < 7 /\ Z.testbit (byteAt payload 1) i = true).
Proof.
  intros Hr Hbit.
  apply supported_report_inv in Hr as (_ & _ & [(Hset & _) | (_ & ->)]);
    [congruence |].
  rewrite In_parseBitMask. cbn [length]. split.
  - intros (position & Hlt & Hp & ->).
    rewrite bitIsSet_first_byte in Hp by lia.
    rewrite Z.add_0_r. split; [| assumption].
    assert (position <> 7%nat) by (intros ->; change (Z.of_nat 7) with 7 in Hp; congruence). lia.
  - intros [Hi Hp]. exists (Z.to_nat i).
    split; [lia |]. rewrite bitIsSet_first_byte by lia.
    rewrite Z2Nat.id by lia. split; [assumption | lia].
Qed.

(** A byte read from a buffer of bytes is a byte. *)
Lemma byteAt_wf (buf : Buffer) (i : nat) :
  wf_buffer buf -> 0 <= byteAt buf i < 256.
Proof.
  intros Hwf. unfold byteAt. destruct (buf !! i) as [b |] eqn:Hb; cbn; [| lia].
  unfold wf_buffer in Hwf. rewrite Forall_forall in Hwf.
  apply Hwf. eapply list_elem_of_lookup_2. exact Hb.
Qed.

(** The supported scales lie between 0 and 6 in the compact form and
    between 0 and [8 e + 6] in the spread form with [e] extra bytes. *)
Theorem supported_scales_range
    (payload : Buffer) (r : MeterCCSupportedReport.t) (i : Z) :
  wf_buffer payload ->
  MeterCCSupportedReport.constructor payload = Ok r ->
  In i (MeterCCSupportedReport._supportedScales r) ->
  0 <= i <=
    if Z.testbit (byteAt payload 1) 7 then 8 * byteAt payload 2 + 6 else 6.
Proof.
  intros Hwf Hr Hin. pose proof (byteAt_wf payload 2 Hwf) as Hb2.
  apply supported_report_inv in Hr
    as (_ & _ & [(Hset & Hlen3 & Hextra & Hscales) | (Hclear & Hscales)]).
  - rewrite Hset. rewrite Hscales in Hin.
    apply in_map_iff in Hin as (j & <- & Hj).
    apply In_parseBitMask in Hj as (position & Hlt & Hp & ->).
    unfold MeterCCSupportedReport.spreadMask, Buffer_concat, slice in Hlt, Hp.
    cbn [concat app] in Hlt, Hp. rewrite app_nil_r in Hlt, Hp.
    assert (H7 : position <> 7%nat)
      by (intros ->; rewrite spread_bit_7_clear in Hp; discriminate Hp).
    cbn [length] in Hlt. rewrite length_take in Hlt.
    unfold MeterCCSupportedReport.reduce.
    destruct (Z.leb_spec 8 (Z.of_nat position + 0)); lia.
  - rewrite Hclear. rewrite Hscales in Hin.
    apply In_parseBitMask in Hin as (position & Hlt & Hp & ->).
    cbn [length] in Hlt. rewrite bitIsSet_first_byte in Hp by lia.
    assert (position <> 7%nat) by (intros ->; change (Z.of_nat 7) with 7 in Hp; congruence). lia.
Qed.

(** The fields taken from byte 0: the type is its low five bits, the reset
    flag its bit 7, and the rate types Consumed and Produced are supported
    exactly when bit 5 and bit 6 are set. *)
Theorem supported_report_byte_0_fields
    (payload : Buffer) (r : MeterCCSupportedReport.t) :
  MeterCCSupportedReport.constructor payload = Ok r ->
  MeterCCSupportedReport._type r = byteAt payload 0 mod 32 /\
  MeterCCSupportedReport._supportsReset r = Z.testbit (byteAt payload 0) 7 /\
  (In RateType.Consumed (MeterCCSupportedReport._supportedRateTypes r) <->
   Z.testbit (byteAt payload 0) 5 = true) /\
  (In RateType.Produced (MeterCCSupportedReport._supportedRateTypes r) <->
   Z.testbit (byteAt payload 0) 6 = true).
Proof.
  intros Hr.
  pose proof (supported_report_inv _ _ Hr) as (_ & Hrates & _).
  assert (Hbit : forall k : nat, (k < 2)%nat ->
            (In (Z.of_nat k + 1)
               (parseBitMask [Z.shiftr (Z.land (byteAt payload 0) 96) 5] 1)
             <-> Z.testbit (byteAt payload 0) (Z.of_nat k + 5) = true)).
  { intros k Hk. rewrite In_parseBitMask. cbn [length]. split.
    - intros (position & Hlt & Hp & Heq).
      assert (position = k) by lia. subst position.
      rewrite bitIsSet_first_byte in Hp by lia.
      rewrite Z.shiftr_spec, Z.land_spec in Hp by lia.
      apply andb_true_iff in Hp as [Hp _]. exact Hp.
    - intros Hp. exists k. split; [lia |]. split; [| reflexivity].
      rewrite bitIsSet_first_byte by lia.
      rewrite Z.shiftr_spec, Z.land_spec by lia. rewrite Hp.
      destruct k as [| [| k]]; [reflexivity | reflexivity | lia]. }
  unfold MeterCCSupportedReport.constructor, validatePayload in Hr.
  destruct (2 <=? length payload)%nat; [| discriminate Hr]. cbn [bind] in Hr.
  destruct (if negb (Z.land (byteAt payload 1) 128 =? 0) then _ else _)
    as [scales | e]; [| discriminate Hr].
  cbn [bind] in Hr. injection Hr as <-.
  cbn [MeterCCSupportedReport._type MeterCCSupportedReport._supportsReset
       MeterCCSupportedReport._supportedRateTypes].
  rewrite land_31_mod, land_128_testbit, negb_involutive.
  repeat split; try apply (Hbit 0%nat); try apply (Hbit 1%nat); lia.
Qed.

(** Bytes after those the form of the payload announces are ignored. *)
Theorem supported_report_ignores_trailing_bytes
    (payload : Buffer) (r : MeterCCSupportedReport.t) :
  MeterCCSupportedReport.constructor payload = Ok r ->
  MeterCCSupportedReport.constructor
    (take (if Z.testbit (byteAt payload 1) 7
           then 3 + Z.to_nat (byteAt payload 2) else 2)%nat payload)
  = Ok r.
Proof.
  intros Hr.
  pose proof (supported_report_inv _ _ Hr)
    as (Hlen & _ & [(Hset & Hlen3 & Hextra & _) | (Hclear & _)]).
  - rewrite Hset.
    set (n := (3 + Z.to_nat (byteAt payload 2))%nat).
    assert (Hn : (n <= length payload)%nat) by lia.
    assert (H0 : byteAt (take n payload) 0 = byteAt payload 0)
      by (unfold byteAt, Buffer; rewrite lookup_take_lt by lia; reflexivity).
    assert (H1 : byteAt (take n payload) 1 = byteAt payload 1)
      by (unfold byteAt, Buffer; rewrite lookup_take_lt by lia; reflexivity).
    assert (H2 : byteAt (take n payload) 2 = byteAt payload 2)
      by (unfold byteAt, Buffer; rewrite lookup_take_lt by lia; reflexivity).
    assert (Hl : length (take n payload) = n) by (rewrite length_take; lia).
    revert Hr. unfold MeterCCSupportedReport.constructor,
      MeterCCSupportedReport.spreadMask, slice.
    rewrite H0, H1, H2, Hl. subst n.
    replace (2 <=? 3 + Z.to_nat (byteAt payload 2))%nat
      with (2 <=? length payload)%nat
      by (symmetry; destruct (Nat.leb_spec 2 (length payload));
          [apply Nat.leb_le; lia | lia]).
    replace (3 <=? 3 + Z.to_nat (byteAt payload 2))%nat
      with (3 <=? length payload)%nat
      by (symmetry; destruct (Nat.leb_spec 3 (length payload));
          [apply Nat.leb_le; lia | lia]).
    replace (3 + byteAt payload 2
             <=? Z.of_nat (3 + Z.to_nat (byteAt payload 2)))
      with (3 + byteAt payload 2 <=? Z.of_nat (length payload))
      by (symmetry; destruct (Z.leb_spec (3 + byteAt payload 2)
                                (Z.of_nat (length payload)));
          [apply Z.leb_le; lia | lia]).
    rewrite skipn_firstn_comm.
    replace (3 + Z.to_nat (byteAt payload 2) - 3)%nat
      with (Z.to_nat (byteAt payload 2)) by lia.
    rewrite take_take, Nat.min_id. intros Hr. exact Hr.
  - rewrite Hclear.
    assert (H0 : byteAt (take 2 payload) 0 = byteAt payload 0)
      by (unfold byteAt, Buffer; rewrite lookup_take_lt by lia; reflexivity).
    assert (H1 : byteAt (take 2 payload) 1 = byteAt payload 1)
      by (unfold byteAt, Buffer; rewrite lookup_take_lt by lia; reflexivity).
    assert (Hl : length (take 2 payload) = 2%nat) by (rewrite length_take; lia).
    revert Hr. unfold MeterCCSupportedReport.constructor.
    rewrite H0, H1, Hl, land_128_testbit, Hclear.
    destruct (Nat.leb_spec 2 (length payload)); [| lia].
    intros Hr. exact Hr.
Qed.

(** The compact form and the spread form without extra bytes decode alike:
    setting bit 7 of byte 1 and inserting a zero count changes nothing. *)
Theorem compact_spread_agree (b0 b1 : Z) (rest rest' : Buffer) :
  0 <= b1 < 128 ->
  MeterCCSupportedReport.constructor (b0 :: (b1 + 128) :: 0 :: rest)
  = MeterCCSupportedReport.constructor (b0 :: b1 :: rest').
Proof.
  intros Hb1.
  assert (Hset : Z.testbit (b1 + 128) 7 = true).
  { apply Z.testbit_true; [lia |]. change (2 ^ 7) with 128.
    replace (b1 + 128) with (b1 + 1 * 128) by lia.
    rewrite Z.div_add by lia. rewrite Z.div_small by lia. reflexivity. }
  assert (Hclear : Z.testbit b1 7 = false).
  { apply Z.testbit_false; [lia |]. change (2 ^ 7) with 128.
    rewrite Z.div_small by lia. reflexivity. }
  assert (Hlow : Z.land (b1 + 128) 127 = b1).
  { change 127 with (Z.ones 7). rewrite Z.land_ones by lia.
    change (2 ^ 7) with 128. replace (b1 + 128) with (b1 + 1 * 128) by lia.
    rewrite Z.mod_add by lia. apply Z.mod_small. lia. }
  assert (Hid : List.map MeterCCSupportedReport.reduce (parseBitMask [b1] 0)
                = parseBitMask [b1] 0).
  { rewrite <- (List.map_id (parseBitMask [b1] 0)) at 2.
    apply List.map_ext_in. intros i Hi.
    apply In_parseBitMask in Hi as (position & Hlt & _ & ->).
    cbn [length] in Hlt. unfold MeterCCSupportedReport.reduce.
    destruct (Z.leb_spec 8 (Z.of_nat position + 0)); [lia | reflexivity]. }
  unfold MeterCCSupportedReport.constructor, validatePayload,
    MeterCCSupportedReport.spreadMask, Buffer_concat, slice.
  change (byteAt (b0 :: (b1 + 128) :: 0 :: rest) 0) with b0.
  change (byteAt (b0 :: (b1 + 128) :: 0 :: rest) 1) with (b1 + 128).
  change (byteAt (b0 :: (b1 + 128) :: 0 :: rest) 2) with 0.
  change (byteAt (b0 :: b1 :: rest') 0) with b0.
  change (byteAt (b0 :: b1 :: rest') 1) with b1.
  rewrite !land_128_testbit, Hset, Hclear, Hlow.
  cbn [length Nat.leb negb bind Z.to_nat Nat.add Nat.sub take concat app].
  destruct (Z.leb_spec (3 + 0) (Z.of_nat (S (S (S (length rest))))));
    [| lia].
  cbn [bind].
  change (take (Z.to_nat 0 - 0) (drop 3 (b0 :: (b1 + 128) :: 0 :: rest)) ++ [])
    with (@nil Z).
  rewrite Hid. reflexivity.
Qed.

(** ** More on MeterCCGet *)

(** [serialize] looks at the version through the tests [>= 2], [>= 3] and
    [>= 4] only: every version from 4 on encodes like version 4, and every
    version below 2 like version 1. *)
Theorem get_version_classes
    (version : Z) (rateType scale : option Z) :
  (4 <= version ->
   MeterCCGet.serialize (MeterCCGet.mk version rateType scale)
   = MeterCCGet.serialize (MeterCCGet.mk 4 rateType scale)) /\
  (version < 2 ->
   MeterCCGet.serialize (MeterCCGet.mk version rateType scale)
   = MeterCCGet.serialize (MeterCCGet.mk 1 rateType scale)).
Proof.
  unfold MeterCCGet.serialize. cbn [MeterCCGet.version MeterCCGet.scale
                                     MeterCCGet.rateType].
  split; intros Hv;
    destruct (Z.leb_spec 2 version); try lia;
    destruct (Z.leb_spec 3 version); try lia;
    destruct (Z.leb_spec 4 version); try lia; reflexivity.
Qed.

(** Below version 4 the rate type asked for is left out of the payload. *)
Theorem get_rate_type_ignored_below_version_4
    (version : Z) (rateType scale : option Z) :
  version < 4 ->
  MeterCCGet.serialize (MeterCCGet.mk version rateType scale)
  = MeterCCGet.serialize (MeterCCGet.mk version None scale).
Proof.
  intros Hv. unfold MeterCCGet.serialize.
  cbn [MeterCCGet.version MeterCCGet.scale MeterCCGet.rateType].
  destruct (Z.leb_spec 4 version); [lia |].
  destruct rateType; reflexivity.
Qed.

(** The payload is empty exactly when no scale is encoded, none being asked
    for or the version being below 2, and no rate type is, none being asked
    for or the version being below 4. *)
Theorem get_payload_empty_iff (this : MeterCCGet.t) :
  MeterCCGet.serialize this = Ok [] <->
  (MeterCCGet.scale this = None \/ MeterCCGet.version this < 2) /\
  (MeterCCGet.rateType this = None \/ MeterCCGet.version this < 4).
Proof.
  unfold MeterCCGet.serialize, Buffer_set, Buffer_alloc.
  destruct (MeterCCGet.scale this) as [s |];
    destruct (MeterCCGet.rateType this) as [r |];
    destruct (Z.leb_spec 4 (MeterCCGet.version this));
    destruct (Z.leb_spec 3 (MeterCCGet.version this));
    destruct (Z.leb_spec 2 (MeterCCGet.version this)); try lia;
    cbn [andb];
    try destruct (Z.leb_spec 7 s);
    cbn [Nat.max replicate];
    try destruct (js_ushr s 3 =? 0);
    (split;
     [ intros Hpay; try discriminate Hpay; split; auto
     | intros [[Hsc | Hsc] [Hrt | Hrt]]; try discriminate; try lia;
       reflexivity ]).
Qed.

(** From version 3 on a scale from 0 to 6 is written whole into bits 5..3
    of the one byte of the payload, under the two low bits of the rate type
    in bits 7..6 when the version is at least 4; bits 2..0 are 0. *)
Theorem get_scale_field (this : MeterCCGet.t) (s : Z) :
  3 <= MeterCCGet.version this ->
  MeterCCGet.scale this = Some s ->
  0 <= s < 7 ->
  exists b,
    MeterCCGet.serialize this = Ok [b] /\
    Z.land (Z.shiftr b 3) 7 = s /\
    Z.land b 7 = 0 /\
    Z.shiftr b 6 =
      match MeterCCGet.rateType this with
      | Some r => if 4 <=? MeterCCGet.version this then r mod 4 else 0
      | None => 0
      end.
Proof.
  intros Hv Hs Hrange.
  assert (Hfields : forall flags, 0 <= flags < 4 ->
            Z.land (Z.shiftr (flags * 64 + s * 8) 3) 7 = s /\
            Z.land (flags * 64 + s * 8) 7 = 0 /\
            Z.shiftr (flags * 64 + s * 8) 6 = flags).
  { intros flags Hflags.
    change 7 with (Z.ones 3). rewrite !Z.land_ones by lia.
    rewrite !Z.shiftr_div_pow2 by lia.
    change (2 ^ 3) with 8. change (2 ^ 6) with 64.
    replace (flags * 64 + s * 8) with ((s + flags * 8) * 8) by lia.
    rewrite Z.div_mul by lia. rewrite Z.mod_mul by lia.
    rewrite Z.mod_add by lia. rewrite Z.mod_small by lia.
    repeat split.
    replace ((s + flags * 8) * 8) with (s * 8 + flags * 64) by lia.
    rewrite Z.div_add by lia. rewrite Z.div_small by lia. lia. }
  assert (Hand : js_and s 7 = s) by (rewrite js_and_7; apply Z.mod_small; lia).
  unfold MeterCCGet.serialize. rewrite Hs.
  destruct (Z.leb_spec 7 s); [lia |]. rewrite andb_false_r.
  destruct (Z.leb_spec 3 (MeterCCGet.version this)); [| lia].
  rewrite Hand.
  destruct (MeterCCGet.rateType this) as [r |];
    [destruct (Z.leb_spec 4 (MeterCCGet.version this)) |];
    cbn [Nat.max]; unfold Buffer_set, Buffer_alloc; cbn [replicate];
    change (<[0%nat := ?v]> [0]) with [v].
  - rewrite js_and_3.
    rewrite (get_byte_0 (r mod 4) s) by (try apply Z.mod_pos_bound; lia).
    eexists. split; [reflexivity |]. apply Hfields. apply Z.mod_pos_bound. lia.
  - rewrite (get_byte_0 0 s) by lia.
    eexists. split; [reflexivity |]. apply (Hfields 0). lia.
  - rewrite (get_byte_0 0 s) by lia.
    eexists. split; [reflexivity |]. apply (Hfields 0). lia.
Qed.

(** ** Instances *)

Lemma report_version_classes_witness :
  MeterCCReport.constructor parseFloatWithScale 7
    [129; 11; 5; 0; 0; 1; 8; 8; 3]
  = MeterCCReport.constructor parseFloatWithScale 4
      [129; 11; 5; 0; 0; 1; 8; 8; 3].
Proof.
  apply (proj1 (report_version_classes parseFloatWithScale 7
                  [129; 11; 5; 0; 0; 1; 8; 8; 3])). lia.
Defined.

Lemma report_failures_witness :
  ((length [129; 27; 0; 0] < 2)%nat /\ PayloadTooShort = PayloadTooShort) \/
  parseFloatWithScale (slice_from [129; 27; 0; 0] 1) = Throw PayloadTooShort \/
  (exists parsed,
     parseFloatWithScale (slice_from [129; 27; 0; 0] 1) = Ok parsed /\
     2 <= 4 /\
     (2 + bytesRead parsed + 2 + bytesRead parsed
      <= length [129; 27; 0; 0])%nat /\
     parseFloatWithScale
       (byteAt [129; 27; 0; 0] 1
        :: drop (2 + bytesRead parsed + 2) [129; 27; 0; 0])
     = Throw PayloadTooShort).
Proof.
  apply (report_failures parseFloatWithScale 4 [129; 27; 0; 0]). reflexivity.
Defined.

Lemma previous_value_needs_delta_time_witness :
  2 <= 4 /\
  exists deltaTime,
    Some (Known 1) = Some deltaTime /\ deltaTime <> Known 0.
Proof.
  exact (previous_value_needs_delta_time parseFloatWithScale 4
           [129; 11; 5; 0; 0; 1; 8; 8; 3]
           (MeterCCReport.mk 1 0 (mkDecimal 5 0) (Some (Known 1))
              (Some (mkDecimal 8 0)) 10)
           (mkDecimal 8 0) eq_refl eq_refl).
Defined.

Lemma scale_not_extended_witness :
  MeterCCReport._scale
    (MeterCCReport.mk 1 0 (mkDecimal 5 0) (Some (Known 1))
       (Some (mkDecimal 8 0)) 7)
  = MeterCCReport.scale1 [129; 11; 5; 0; 0; 1; 8; 8; 3] 3.
Proof.
  apply (scale_not_extended parseFloatWithScale 3
           [129; 11; 5; 0; 0; 1; 8; 8; 3]
           (MeterCCReport.mk 1 0 (mkDecimal 5 0) (Some (Known 1))
              (Some (mkDecimal 8 0)) 7)
           (mkFloatWithScale 3 (mkDecimal 5 0) 2));
    [reflexivity | reflexivity | left; lia].
Defined.

Lemma report_byte_0_fields_witness :
  1 = byteAt [97; 9; 5] 0 mod 32 /\
  3 = (byteAt [97; 9; 5] 0 / 32) mod 4 /\
  0 <= 1 < 32 /\ 0 <= 3 < 4.
Proof.
  exact (report_byte_0_fields parseFloatWithScale 1 [97; 9; 5]
           (MeterCCReport.mk 1 3 (mkDecimal 5 0) (Some (Known 0)) None 1)
           eq_refl).
Defined.

Lemma delta_time_range_witness : 0 <= 65280 < 65535.
Proof.
  apply (delta_time_range parseFloatWithScale 2 [1; 9; 5; 0; 255; 0]
           (MeterCCReport.mk 1 0 (mkDecimal 5 0) (Some (Known 65280)) None 1)
           65280); [| reflexivity | reflexivity].
  unfold wf_buffer. repeat constructor; lia.
Defined.

Lemma zero_delta_time_at_offset_witness :
  exists r,
    MeterCCReport.constructor parseFloatWithScale 2 [1; 9; 5; 0; 0; 0; 7; 7]
      = Ok r /\
    MeterCCReport._deltaTime r = Some (Known 0) /\
    MeterCCReport._previousValue r = None.
Proof.
  apply (zero_delta_time_at_offset parseFloatWithScale 2
           [1; 9; 5; 0; 0; 0; 7; 7] (mkFloatWithScale 1 (mkDecimal 5 0) 2)
           [7; 7]); [lia | reflexivity | reflexivity].
Defined.

Lemma unknown_delta_time_at_offset_witness :
  exists r,
    MeterCCReport.constructor parseFloatWithScale 2
      [1; 9; 5; 0; 255; 255; 7; 7] = Ok r /\
    MeterCCReport._deltaTime r = Some unknownNumber /\
    MeterCCReport._deltaTime r <> Some (Known 65535).
Proof.
  apply (unknown_delta_time_at_offset parseFloatWithScale 2
           [1; 9; 5; 0; 255; 255; 7; 7] (mkFloatWithScale 1 (mkDecimal 5 0) 2)
           [7; 7]); [lia | reflexivity | reflexivity |].
  intros _. eexists. reflexivity.
Defined.

Lemma previous_value_same_precision_witness :
  precision (mkDecimal 8 2) = precision (mkDecimal 5 2).
Proof.
  exact (previous_value_same_precision 4 [129; 75; 5; 0; 0; 1; 8; 8; 3]
           (MeterCCReport.mk 1 0 (mkDecimal 5 2) (Some (Known 1))
              (Some (mkDecimal 8 2)) 10)
           (mkDecimal 8 2) eq_refl eq_refl).
Defined.

Lemma compact_supported_scales_witness :
  In 2 [0; 1; 2] <-> 0 <= 2 < 7 /\ Z.testbit (byteAt [225; 7] 1) 2 = true.
Proof.
  exact (compact_supported_scales [225; 7]
           (MeterCCSupportedReport.mk 1 true [0; 1; 2] [1; 2]) 2
           eq_refl eq_refl).
Defined.

Lemma supported_scales_range_witness : 0 <= 15 <= 8 * 2 + 6.
Proof.
  apply (supported_scales_range [225; 131; 2; 129; 1]
           (MeterCCSupportedReport.mk 1 true [0; 1; 7; 14; 15] [1; 2]) 15);
    [| reflexivity | simpl; tauto].
  unfold wf_buffer. repeat constructor; lia.
Defined.

Lemma supported_report_byte_0_fields_witness :
  1 = byteAt [161; 7] 0 mod 32 /\
  true = Z.testbit (byteAt [161; 7] 0) 7 /\
  (In RateType.Consumed [1] <-> Z.testbit (byteAt [161; 7] 0) 5 = true) /\
  (In RateType.Produced [1] <-> Z.testbit (byteAt [161; 7] 0) 6 = true).
Proof.
  exact (supported_report_byte_0_fields [161; 7]
           (MeterCCSupportedReport.mk 1 true [0; 1; 2] [1]) eq_refl).
Defined.

Lemma supported_report_ignores_trailing_bytes_witness :
  MeterCCSupportedReport.constructor [225; 131; 2; 129; 1]
  = Ok (MeterCCSupportedReport.mk 1 true [0; 1; 7; 14; 15] [1; 2]).
Proof.
  exact (supported_report_ignores_trailing_bytes [225; 131; 2; 129; 1; 9; 9]
           (MeterCCSupportedReport.mk 1 true [0; 1; 7; 14; 15] [1; 2])
           eq_refl).
Defined.

Lemma compact_spread_agree_witness :
  MeterCCSupportedReport.constructor [225; 7 + 128; 0]
  = MeterCCSupportedReport.constructor [225; 7].
Proof. apply (compact_spread_agree 225 7 [] []). lia. Defined.

Lemma get_version_classes_witness :
  MeterCCGet.serialize (MeterCCGet.mk 9 (Some 1) (Some 8))
  = MeterCCGet.serialize (MeterCCGet.mk 4 (Some 1) (Some 8)).
Proof.
  apply (proj1 (get_version_classes 9 (Some 1) (Some 8))). lia.
Defined.

Lemma get_rate_type_ignored_below_version_4_witness :
  MeterCCGet.serialize (MeterCCGet.mk 3 (Some 2) (Some 5))
  = MeterCCGet.serialize (MeterCCGet.mk 3 None (Some 5)).
Proof.
  apply (get_rate_type_ignored_below_version_4 3 (Some 2) (Some 5)). lia.
Defined.

Lemma get_scale_field_witness :
  exists b,
    MeterCCGet.serialize (MeterCCGet.mk 4 (Some 2) (Some 5)) = Ok [b] /\
    Z.land (Z.shiftr b 3) 7 = 5 /\
    Z.land b 7 = 0 /\
    Z.shiftr b 6 = 2.
Proof.
  apply (get_scale_field (MeterCCGet.mk 4 (Some 2) (Some 5)) 5);
    [simpl; lia | reflexivity | lia].
Defined.

Lemma get_serialize_extended_witness :
  MeterCCGet.serialize (MeterCCGet.mk 4 (Some 2) (Some 8)) = Ok [184; 1].
Proof.
  apply (get_serialize_extended (MeterCCGet.mk 4 (Some 2) (Some 8)) 8);
    [simpl; lia | reflexivity | lia].
Defined.
